(** * Organization mutations of the SaaS starter kit

    A shallow embedding of
    [starterkits/saas/src/server/actions/organization/mutations.ts]:
    the nine server actions that create, edit and delete organizations,
    run the join-request workflow and manage the member roster.

    Every action is a short sequence of awaited database statements.  The
    actions are written in a small free monad over those statements
    ([Prog]); an interpreter ([exec]) runs them against a store made of
    the three tables the file touches and records the store after each
    statement, which is what another connection can read, since no
    statement of the file runs inside a transaction. *)

From Stdlib Require Import String List Bool Arith Lia DecimalString.
Import ListNotations.
Open Scope string_scope.

(** ** Data model *)

(** Ids are strings ([z.string()] for request, member and user ids). *)
Definition Id := string.

Definition id_eqb (a b : Id) : bool := String.eqb a b.

(** Modelled from the spec: the role enum of the [membersToOrganizations]
    table (the schema file is not part of the sources); the spec gives
    the roles [Admin] and [Member]. *)
Inductive Role := Admin | Member.

Definition role_eqb (a b : Role) : bool :=
  match a, b with
  | Admin, Admin | Member, Member => true
  | _, _ => false
  end.

(** Modelled from the spec: the column default of
    [membersToOrganizations.role], used when an insert leaves the role
    out; the spec names [Member] as the default role. *)
Definition default_role : Role := Member.

(** The session user returned by [protectedProcedure()]; only its id is
    read by the mutations. *)
Module user.
Record t := mk { id : Id }.
End user.

(** Rows of the [organizations] table. *)
Module organizations.
Record row := mk { id : Id; name : string; image : string; ownerId : Id }.
End organizations.

(** Rows of the [membersToOrganizations] table. *)
Module membersToOrganizations.
Record row := mk { memberId : Id; organizationId : Id; role : Role }.
End membersToOrganizations.

(** Rows of the [orgRequests] table; a row is a pending join request. *)
Module orgRequests.
Record row := mk { id : Id; userId : Id; organizationId : Id }.
End orgRequests.

(** The persistent store: the three tables, each a list of rows in
    insertion order. *)
Record Store := mkStore {
  orgs : list organizations.row;
  members : list membersToOrganizations.row;
  requests : list orgRequests.row
}.

(** ** Exceptions *)

(** One issue of a failed zod parse. *)
Record ZodIssue := mkIssue {
  code : string;
  path : list string;
  message : string
}.

(** What a mutation can throw: [new Error(message, { cause })] of the
    source, the [TypeError] of reading a property of [undefined], and an
    error raised by the database driver. *)
Inductive Exn :=
| Error (msg : string) (cause : option (list ZodIssue))
| TypeError
| DatabaseError (detail : string).

(** The error taxonomy of the specification, read off the thrown value. *)
Inductive ErrorKind :=
| ValidationError | NotAuthorized | NotFound | StoreFailure | OtherError.

Definition not_owner_msg := "You are not the owner of this organization".
Definition not_admin_msg := "You are not an admin of this organization".
Definition not_found_msg := "Request not found".

Definition kind_of (e : Exn) : ErrorKind :=
  match e with
  | Error _ (Some _) => ValidationError
  | Error m None =>
      if String.eqb m not_owner_msg || String.eqb m not_admin_msg
      then NotAuthorized
      else if String.eqb m not_found_msg then NotFound else OtherError
  | TypeError => OtherError
  | DatabaseError _ => StoreFailure
  end.

(** ** Database statements *)

(** The values of an insert into [organizations]: the parsed data of
    [createOrgSchema] (the id column is left to its default). *)
Record NewOrganization := mkNewOrg {
  new_name : string;
  new_image : string;
  new_ownerId : Id
}.

(** The statements the mutations await, indexed by what they resolve to. *)
Inductive db : Type -> Type :=
| insert_organizations_returning
    (values : NewOrganization) : db (list organizations.row)
| insert_membersToOrganizations
    (memberId organizationId : Id) (role : option Role) : db unit
| findFirst_membersToOrganizations
    (memberId organizationId : Id) (role : Role)
    : db (option membersToOrganizations.row)
| update_organizations_set_name (name : string) (id : Id) : db unit
| update_organizations_set_image (image : string) (id : Id) : db unit
| delete_organizations (id : Id) : db unit
| insert_orgRequests_onConflictDoNothing
    (organizationId userId : Id) : db unit
| findFirst_orgRequests (id : Id) : db (option orgRequests.row)
| delete_orgRequests (id : Id) : db unit
| update_membersToOrganizations_set_role
    (role : Role) (memberId organizationId : Id) : db unit
| delete_membersToOrganizations (memberId organizationId : Id) : db unit.

(** ** Programs *)

(** An async function body: it returns, throws, or awaits a statement and
    goes on with what the statement resolved to. *)
Inductive Prog (A : Type) : Type :=
| Ret (a : A)
| Throw (e : Exn)
| Await {X : Type} (q : db X) (k : X -> Prog A).

Arguments Ret {A} a.
Arguments Throw {A} e.
Arguments Await {A X} q k.

Fixpoint bind {A B : Type} (p : Prog A) (f : A -> Prog B) : Prog B :=
  match p with
  | Ret a => f a
  | Throw e => Throw e
  | Await q k => Await q (fun x => bind (k x) f)
  end.

Definition await {X : Type} (q : db X) : Prog X := Await q Ret.

Declare Scope prog_scope.
Delimit Scope prog_scope with prog.
Notation "x <- p ;; q" := (bind p (fun x => q))
  (at level 61, p at next level, right associativity) : prog_scope.
Notation "p ;; q" := (bind p (fun _ => q))
  (at level 61, right associativity) : prog_scope.
Open Scope prog_scope.

(** ** Row predicates used by the [where] clauses *)

Definition member_is (m o : Id) (r : membersToOrganizations.row) : bool :=
  id_eqb (membersToOrganizations.memberId r) m
  && id_eqb (membersToOrganizations.organizationId r) o.

Definition member_is_role (m o : Id) (ro : Role)
  (r : membersToOrganizations.row) : bool :=
  member_is m o r && role_eqb (membersToOrganizations.role r) ro.

Definition org_is (i : Id) (r : organizations.row) : bool :=
  id_eqb (organizations.id r) i.

Definition request_is (i : Id) (r : orgRequests.row) : bool :=
  id_eqb (orgRequests.id r) i.

Definition request_for (o u : Id) (r : orgRequests.row) : bool :=
  id_eqb (orgRequests.organizationId r) o && id_eqb (orgRequests.userId r) u.

Definition set_name (n : string) (r : organizations.row) :=
  organizations.mk (organizations.id r) n
    (organizations.image r) (organizations.ownerId r).

Definition set_image (i : string) (r : organizations.row) :=
  organizations.mk (organizations.id r) (organizations.name r)
    i (organizations.ownerId r).

Definition set_role (ro : Role) (r : membersToOrganizations.row) :=
  membersToOrganizations.mk (membersToOrganizations.memberId r)
    (membersToOrganizations.organizationId r) ro.

Definition update_where {A : Type} (p : A -> bool) (f : A -> A)
  (l : list A) : list A :=
  map (fun r => if p r then f r else r) l.

Definition delete_where {A : Type} (p : A -> bool) (l : list A) : list A :=
  filter (fun r => negb (p r)) l.

Definition count_where {A : Type} (p : A -> bool) (l : list A) : nat :=
  length (filter p l).

(** Modelled from the spec: deleting an organization removes, with its
    row, the memberships and join requests that refer to it (the foreign
    keys of the schema, which is not part of the sources, cascade). *)
Definition delete_cascade (i : Id) (s : Store) : Store :=
  if existsb (org_is i) (orgs s)
  then mkStore
         (delete_where (org_is i) (orgs s))
         (delete_where
            (fun r => id_eqb (membersToOrganizations.organizationId r) i)
            (members s))
         (delete_where
            (fun r => id_eqb (orgRequests.organizationId r) i)
            (requests s))
  else s.

Definition unique_violation := "unique_violation".
Definition foreign_key_violation := "foreign_key_violation".
Definition connection_failure := "connection_failure".

(** ** Runs *)

(** The result of a run: the store after each statement that completed
    (every one of them is committed on its own, so each is a state that
    another reader of the store can observe), the store the run ends in,
    and what the function returned or threw. *)
Record Run (A : Type) := mkRun {
  seen : list Store;
  final : Store;
  outcome : Exn + A
}.

Arguments mkRun {A} seen final outcome.
Arguments seen {A} r.
Arguments final {A} r.
Arguments outcome {A} r.

(** ** The store's answer to one statement *)

Section Server.

(** The [gen_random_uuid()] default of an id column: any function of the
    store; what a theorem needs of the generated id is a hypothesis. *)
Variable gen_random_uuid : Store -> Id.

(** The test behind [z.string().url()]. *)
Variable is_url : string -> bool.

(** Modelled from the spec: the constraints of the schema, which is not
    part of the sources.  [organizations.id] and [orgRequests.id] are
    keys; a membership is unique per (member, organization) pair; a join
    request is unique per (organization, user) pair; deleting an
    organization cascades to its memberships and join requests.  A
    violated constraint makes the statement throw, except under
    [onConflictDoNothing], where the insert is skipped.  The cascade is
    that of a foreign key: a join request row that is inserted must name
    an organization of the store, or the statement throws; a row skipped
    on a conflict is not checked.  The organization a membership insert
    names is never the client's: it is the row the run has just inserted
    or the current organization that [getOrganizations()] resolved from
    the store, and its key is taken to hold. *)
Definition db_exec {X : Type} (q : db X) (s : Store) : Exn + (Store * X) :=
  match q in db T return Exn + (Store * T) with
  | insert_organizations_returning v =>
      let row := organizations.mk (gen_random_uuid s)
                   (new_name v) (new_image v) (new_ownerId v) in
      if existsb (org_is (organizations.id row)) (orgs s)
      then inl (DatabaseError unique_violation)
      else inr (mkStore (orgs s ++ [row]) (members s) (requests s), [row])
  | insert_membersToOrganizations m o ro =>
      let row := membersToOrganizations.mk m o
                   (match ro with Some r => r | None => default_role end) in
      if existsb (member_is m o) (members s)
      then inl (DatabaseError unique_violation)
      else inr (mkStore (orgs s) (members s ++ [row]) (requests s), tt)
  | findFirst_membersToOrganizations m o ro =>
      inr (s, find (member_is_role m o ro) (members s))
  | update_organizations_set_name n i =>
      inr (mkStore (update_where (org_is i) (set_name n) (orgs s))
             (members s) (requests s), tt)
  | update_organizations_set_image im i =>
      inr (mkStore (update_where (org_is i) (set_image im) (orgs s))
             (members s) (requests s), tt)
  | delete_organizations i => inr (delete_cascade i s, tt)
  | insert_orgRequests_onConflictDoNothing o u =>
      let row := orgRequests.mk (gen_random_uuid s) u o in
      if existsb (request_is (orgRequests.id row)) (requests s)
         || existsb (request_for o u) (requests s)
      then inr (s, tt)
      else if existsb (org_is o) (orgs s)
      then inr (mkStore (orgs s) (members s) (requests s ++ [row]), tt)
      else inl (DatabaseError foreign_key_violation)
  | findFirst_orgRequests i =>
      inr (s, find (request_is i) (requests s))
  | delete_orgRequests i =>
      inr (mkStore (orgs s) (members s)
             (delete_where (request_is i) (requests s)), tt)
  | update_membersToOrganizations_set_role ro m o =>
      inr (mkStore (orgs s)
             (update_where (member_is m o) (set_role ro) (members s))
             (requests s), tt)
  | delete_membersToOrganizations m o =>
      inr (mkStore (orgs s)
             (delete_where (member_is m o) (members s))
             (requests s), tt)
  end.

(** ** Running a program *)

(** [faults] says, statement by statement, whether the store is
    unreachable when the statement is issued ([true]); past its end the
    store answers.  A statement that throws changes nothing, and what the
    statements before it wrote stays: nothing is rolled back. *)
Fixpoint exec {A : Type} (p : Prog A) (faults : list bool) (s : Store)
  : Run A :=
  match p with
  | Ret a => mkRun [] s (inr a)
  | Throw e => mkRun [] s (inl e)
  | Await q k =>
      if hd false faults
      then mkRun [] s (inl (DatabaseError connection_failure))
      else match db_exec q s with
           | inl e => mkRun [] s (inl e)
           | inr (s', x) =>
               let r := exec (k x) (tl faults) s' in
               mkRun (s' :: seen r) (final r) (outcome r)
           end
  end.

(** A run against a store that answers every statement. *)
Definition run {A : Type} (p : Prog A) (s : Store) : Store * (Exn + A) :=
  let r := exec p [] s in (final r, outcome r).

(** ** Validation *)

(** [z.string().min(3, ...).max(50, ...)] on the field [name]: both
    checks run and each adds its issue.  A character of the string stands
    for one code unit of the JavaScript string, whose [length] zod
    compares. *)
Definition name_issues (v : string) : list ZodIssue :=
  (if Nat.ltb (String.length v) 3
   then [mkIssue "too_small" ["name"]
           "Name must be at least 3 characters long"]
   else [])
  ++ (if Nat.ltb 50 (String.length v)
      then [mkIssue "too_big" ["name"]
              "Name must be at most 50 characters long"]
      else []).

(** [z.string().url({ message: "Invalid image URL" })] on [image]. *)
Definition image_issues (v : string) : list ZodIssue :=
  if is_url v then []
  else [mkIssue "invalid_string" ["image"] "Invalid image URL"].

(** [safeParseAsync]: the data when no check raised an issue. *)
Definition safeParse {A : Type} (issues : list ZodIssue) (data : A)
  : list ZodIssue + A :=
  match issues with
  | [] => inr data
  | _ :: _ => inl issues
  end.

Definition createOrgSchema (input : NewOrganization)
  : list ZodIssue + NewOrganization :=
  safeParse (name_issues (new_name input) ++ image_issues (new_image input))
    input.

Definition updateOrgNameSchema (name : string) : list ZodIssue + string :=
  safeParse (name_issues name) name.

Definition updateOrgImageSchema (image : string) : list ZodIssue + string :=
  safeParse (image_issues image) image.

(** [z.object({ requestId: z.string() })] and its siblings accept every
    string. *)
Definition acceptOrgRequestSchema (requestId : Id) : list ZodIssue + Id :=
  safeParse [] requestId.

Definition declineOrgRequestSchema (requestId : Id) : list ZodIssue + Id :=
  safeParse [] requestId.

Definition removeUserSchema (userId : Id) : list ZodIssue + Id :=
  safeParse [] userId.

(** Modelled from the spec: the insert schemas that drizzle-zod derives
    from the tables [orgRequests] and [membersToOrganizations] (the
    schema file is not part of the sources); they check the shape of the
    payload, which a typed payload has. *)
Definition orgRequestSchema (organizationId userId : Id)
  : list ZodIssue + (Id * Id) :=
  safeParse [] (organizationId, userId).

Definition updateMemberRoleSchema (memberId : Id) (role : Role)
  : list ZodIssue + (Id * Role) :=
  safeParse [] (memberId, role).

(** Truthiness of the row [findFirst] resolved to. *)
Definition truthy {A : Type} (o : option A) : bool :=
  match o with Some _ => true | None => false end.

(** ** The mutations *)

(** Each mutation takes the session user of [protectedProcedure()] and,
    where the source calls [getOrganizations()], the [currentOrg] it
    resolved, as arguments. *)

Definition createOrgMutation (user : user.t) (name image : string)
  : Prog organizations.row :=
  match createOrgSchema (mkNewOrg name image (user.id user)) with
  | inl errors => Throw (Error "Invalid organization data" (Some errors))
  | inr data =>
      createOrg <- await (insert_organizations_returning data) ;;
      match nth_error createOrg 0 with
      | None => Throw TypeError
      | Some created =>
          await (insert_membersToOrganizations
                   (new_ownerId data) (organizations.id created)
                   (Some Admin)) ;;
          Ret created
      end
  end.

Definition updateOrgNameMutation (user : user.t)
  (currentOrg : organizations.row) (name : string) : Prog unit :=
  match updateOrgNameSchema name with
  | inl errors => Throw (Error "Invalid organization data" (Some errors))
  | inr data =>
      memToOrg <- await (findFirst_membersToOrganizations
                           (user.id user) (organizations.id currentOrg)
                           Admin) ;;
      if id_eqb (organizations.ownerId currentOrg) (user.id user)
         || truthy memToOrg
      then await (update_organizations_set_name data
                    (organizations.id currentOrg))
      else Throw (Error not_admin_msg None)
  end.

Definition updateOrgImageMutation (user : user.t)
  (currentOrg : organizations.row) (image : string) : Prog unit :=
  match updateOrgImageSchema image with
  | inl errors => Throw (Error "Invalid organization data" (Some errors))
  | inr data =>
      memToOrg <- await (findFirst_membersToOrganizations
                           (user.id user) (organizations.id currentOrg)
                           Admin) ;;
      if id_eqb (organizations.ownerId currentOrg) (user.id user)
         || truthy memToOrg
      then await (update_organizations_set_image data
                    (organizations.id currentOrg))
      else Throw (Error not_admin_msg None)
  end.

Definition deleteOrgMutation (user : user.t)
  (currentOrg : organizations.row) : Prog unit :=
  if negb (id_eqb (organizations.ownerId currentOrg) (user.id user))
  then Throw (Error not_owner_msg None)
  else await (delete_organizations (organizations.id currentOrg)).

Definition sendOrgRequestMutation (user : user.t) (orgId : Id)
  : Prog unit :=
  match orgRequestSchema orgId (user.id user) with
  | inl errors => Throw (Error "Invalid organization data" (Some errors))
  | inr (organizationId, userId) =>
      await (insert_orgRequests_onConflictDoNothing organizationId userId)
  end.

Definition acceptOrgRequestMutation (user : user.t)
  (currentOrg : organizations.row) (requestId : Id) : Prog unit :=
  match acceptOrgRequestSchema requestId with
  | inl errors => Throw (Error "Invalid request data" (Some errors))
  | inr data =>
      memToOrg <- await (findFirst_membersToOrganizations
                           (user.id user) (organizations.id currentOrg)
                           Admin) ;;
      if id_eqb (organizations.ownerId currentOrg) (user.id user)
         || truthy memToOrg
      then
        request <- await (findFirst_orgRequests data) ;;
        match request with
        | None => Throw (Error not_found_msg None)
        | Some request =>
            await (insert_membersToOrganizations
                     (orgRequests.userId request)
                     (organizations.id currentOrg) None) ;;
            await (delete_orgRequests data)
        end
      else Throw (Error not_admin_msg None)
  end.

Definition declineOrgRequestMutation (user : user.t)
  (currentOrg : organizations.row) (requestId : Id) : Prog unit :=
  match declineOrgRequestSchema requestId with
  | inl errors => Throw (Error "Invalid request data" (Some errors))
  | inr data =>
      memToOrg <- await (findFirst_membersToOrganizations
                           (user.id user) (organizations.id currentOrg)
                           Admin) ;;
      if id_eqb (organizations.ownerId currentOrg) (user.id user)
         || truthy memToOrg
      then await (delete_orgRequests data)
      else Throw (Error not_admin_msg None)
  end.

Definition updateMemberRoleMutation (user : user.t)
  (currentOrg : organizations.row) (memberId : Id) (role : Role)
  : Prog unit :=
  match updateMemberRoleSchema memberId role with
  | inl errors => Throw (Error "Invalid update member data" (Some errors))
  | inr (dataMemberId, dataRole) =>
      memToOrg <- await (findFirst_membersToOrganizations
                           (user.id user) (organizations.id currentOrg)
                           Admin) ;;
      if role_eqb dataRole Admin
         && negb (id_eqb (organizations.ownerId currentOrg) (user.id user))
      then Throw (Error not_owner_msg None)
      else if id_eqb (organizations.ownerId currentOrg) (user.id user)
              || truthy memToOrg
      then await (update_membersToOrganizations_set_role dataRole
                    dataMemberId (organizations.id currentOrg))
      else Throw (Error not_admin_msg None)
  end.

Definition removeUserMutation (user : user.t)
  (currentOrg : organizations.row) (userId : Id) : Prog unit :=
  match removeUserSchema userId with
  | inl errors => Throw (Error "Invalid remove user data" (Some errors))
  | inr data =>
      memToOrg <- await (findFirst_membersToOrganizations
                           (user.id user) (organizations.id currentOrg)
                           Admin) ;;
      if id_eqb (organizations.ownerId currentOrg) (user.id user)
         || truthy memToOrg
      then await (delete_membersToOrganizations data
                    (organizations.id currentOrg))
      else Throw (Error not_admin_msg None)
  end.

(** ** The authorizer of the specification *)

(** The caller is the owner recorded on the organization. *)
Definition isOwner (currentOrg : organizations.row) (caller : user.t)
  : bool :=
  id_eqb (organizations.ownerId currentOrg) (user.id caller).

(** The caller holds a membership row of the organization with role
    [Admin]. *)
Definition isAdmin (s : Store) (currentOrg : organizations.row)
  (caller : user.t) : bool :=
  existsb (member_is_role (user.id caller) (organizations.id currentOrg)
             Admin) (members s).

Definition privileged (s : Store) (currentOrg : organizations.row)
  (caller : user.t) : bool :=
  isOwner currentOrg caller || isAdmin s currentOrg caller.

(** What the specification's properties count. *)

Definition has_org (i : Id) (s : Store) : bool :=
  existsb (org_is i) (orgs s).

Definition request_exists (i : Id) (s : Store) : bool :=
  existsb (request_is i) (requests s).

Definition is_member (m o : Id) (s : Store) : bool :=
  existsb (member_is m o) (members s).

Definition memberships_of (m o : Id) (s : Store) : nat :=
  count_where (member_is m o) (members s).

Definition pending_requests (o u : Id) (s : Store) : nat :=
  count_where (request_for o u) (requests s).

(** A name the schemas accept. *)
Definition valid_name (name : string) : Prop :=
  3 <= String.length name <= 50.

(** The two not-authorized errors of the source. *)
Definition denied : Exn := Error not_admin_msg None.
Definition owner_only : Exn := Error not_owner_msg None.

(** The membership row an accepted request turns into. *)
Definition accepted_row (currentOrg : organizations.row)
  (request : orgRequests.row) : membersToOrganizations.row :=
  membersToOrganizations.mk (orgRequests.userId request)
    (organizations.id currentOrg) default_role.

(** The rows [createOrgMutation] writes when it runs in store [s]. *)
Definition created_org (caller : user.t) (name image : string) (s : Store)
  : organizations.row :=
  organizations.mk (gen_random_uuid s) name image (user.id caller).

Definition owner_row (caller : user.t) (s : Store)
  : membersToOrganizations.row :=
  membersToOrganizations.mk (user.id caller) (gen_random_uuid s) Admin.

Definition org_inserted (caller : user.t) (name image : string) (s : Store)
  : Store :=
  mkStore (orgs s ++ [created_org caller name image s])
    (members s) (requests s).

Definition owner_inserted (caller : user.t) (name image : string)
  (s : Store) : Store :=
  mkStore (orgs s ++ [created_org caller name image s])
    (members s ++ [owner_row caller s]) (requests s).

(** Whether membership rows, or join request rows, refer to an
    organization id. *)
Definition org_has_members (i : Id) (s : Store) : bool :=
  existsb (fun r => id_eqb (membersToOrganizations.organizationId r) i)
    (members s).

Definition org_has_requests (i : Id) (s : Store) : bool :=
  existsb (fun r => id_eqb (orgRequests.organizationId r) i) (requests s).

(** ** Sample data

    Two organizations, their members and two pending join requests, and
    a generator that numbers the rows, on which the theorems are run. *)

Definition sample_uuid (s : Store) : Id :=
  "uuid-" ++ NilEmpty.string_of_uint
               (Nat.to_uint (List.length (orgs s) + List.length (requests s))).

(** A stand-in for the URL test, used on the sample data only (the
    theorems hold for any test): one of the schemes below followed by a
    non-empty rest. *)
Definition sample_is_url (v : string) : bool :=
  existsb
    (fun scheme =>
       String.prefix scheme v
       && Nat.ltb (String.length scheme) (String.length v))
    ["https://"; "http://"; "ftp://"].

Definition alice := user.mk "alice".
Definition bob := user.mk "bob".
Definition mia := user.mk "mia".
Definition dan := user.mk "dan".

Definition acme :=
  organizations.mk "org-acme" "Acme" "https://img.example/acme.png" "alice".
Definition globex :=
  organizations.mk "org-globex" "Globex" "https://img.example/globex.png"
    "gina".

Definition carol_request := orgRequests.mk "req-1" "carol" "org-globex".
Definition dan_request := orgRequests.mk "req-2" "dan" "org-acme".

Definition sample_store : Store :=
  mkStore
    [acme; globex]
    [membersToOrganizations.mk "alice" "org-acme" Admin;
     membersToOrganizations.mk "bob" "org-acme" Admin;
     membersToOrganizations.mk "mia" "org-acme" Member;
     membersToOrganizations.mk "gina" "org-globex" Admin]
    [carol_request; dan_request].

(** ** Basic facts *)

Lemma truthy_find {A : Type} (p : A -> bool) (l : list A) :
  truthy (find p l) = existsb p l.
Proof.
  induction l as [|a l IH]; simpl; [reflexivity|].
  destruct (p a); simpl; [reflexivity | exact IH].
Qed.

Lemma store_eta (s : Store) :
  mkStore (orgs s) (members s) (requests s) = s.
Proof. destruct s; reflexivity. Qed.

Lemma delete_where_absent {A : Type} (p : A -> bool) (l : list A) :
  existsb p l = false -> delete_where p l = l.
Proof.
  unfold delete_where.
  induction l as [|a l IH]; simpl; intros H; [reflexivity|].
  apply orb_false_iff in H as [Ha Hl].
  rewrite Ha; simpl. now rewrite IH.
Qed.

Lemma delete_where_gone {A : Type} (p : A -> bool) (l : list A) :
  existsb p (delete_where p l) = false.
Proof.
  unfold delete_where.
  induction l as [|a l IH]; simpl; [reflexivity|].
  destruct (p a) eqn:Ha; simpl; [exact IH | now rewrite Ha, IH].
Qed.

Lemma count_where_app {A : Type} (p : A -> bool) (l1 l2 : list A) :
  count_where p (l1 ++ l2) = count_where p l1 + count_where p l2.
Proof. unfold count_where. now rewrite filter_app, length_app. Qed.

Lemma count_where_absent {A : Type} (p : A -> bool) (l : list A) :
  existsb p l = false -> count_where p l = 0.
Proof.
  unfold count_where.
  induction l as [|a l IH]; simpl; intros H; [reflexivity|].
  apply orb_false_iff in H as [Ha Hl].
  rewrite Ha. now apply IH.
Qed.

Lemma count_where_present {A : Type} (p : A -> bool) (l : list A) :
  existsb p l = true -> 1 <= count_where p l.
Proof.
  unfold count_where.
  induction l as [|a l IH]; simpl; intros H; [discriminate|].
  destruct (p a); simpl in *; [lia | now apply IH].
Qed.

Lemma id_eqb_refl (a : Id) : id_eqb a a = true.
Proof. apply String.eqb_refl. Qed.

Lemma name_issues_valid (name : string) :
  valid_name name -> name_issues name = [].
Proof.
  unfold valid_name, name_issues. intros [Hlo Hhi].
  destruct (Nat.ltb_spec (String.length name) 3); [lia|].
  destruct (Nat.ltb_spec 50 (String.length name)); [lia|].
  reflexivity.
Qed.

Lemma name_issues_invalid (name : string) :
  String.length name < 3 \/ 50 < String.length name ->
  exists i rest, name_issues name = i :: rest /\ path i = ["name"].
Proof.
  unfold name_issues. intros H.
  destruct (Nat.ltb_spec (String.length name) 3).
  - eexists; eexists; split; reflexivity.
  - destruct (Nat.ltb_spec 50 (String.length name)); [|lia].
    eexists; eexists; split; reflexivity.
Qed.

(** The test every privileged mutation makes on the row it looked up is
    the authorizer's decision. *)
Lemma gate_privileged (s : Store) (currentOrg : organizations.row)
  (caller : user.t) :
  id_eqb (organizations.ownerId currentOrg) (user.id caller)
  || truthy (find (member_is_role (user.id caller)
                     (organizations.id currentOrg) Admin) (members s))
  = privileged s currentOrg caller.
Proof. unfold privileged, isOwner, isAdmin. now rewrite truthy_find. Qed.

(** ** What each mutation does, by the authorizer's decision *)

#[local] Arguments truthy : simpl never.
#[local] Arguments id_eqb : simpl never.
#[local] Arguments role_eqb : simpl never.
#[local] Arguments delete_cascade : simpl never.

Ltac by_gate H :=
  cbn; rewrite ?gate_privileged, ?H; reflexivity.

Lemma exec_deleteOrg_not_owner caller currentOrg s :
  isOwner currentOrg caller = false ->
  exec (deleteOrgMutation caller currentOrg) [] s
  = mkRun [] s (inl owner_only).
Proof.
  unfold isOwner, deleteOrgMutation. intros H. rewrite H. reflexivity.
Qed.

Lemma exec_deleteOrg_owner caller currentOrg s :
  isOwner currentOrg caller = true ->
  exec (deleteOrgMutation caller currentOrg) [] s
  = let s' := delete_cascade (organizations.id currentOrg) s in
    mkRun [s'] s' (inr tt).
Proof.
  unfold isOwner, deleteOrgMutation. intros H. rewrite H. reflexivity.
Qed.

Lemma exec_updateOrgName_denied caller currentOrg name s :
  privileged s currentOrg caller = false ->
  name_issues name = [] ->
  exec (updateOrgNameMutation caller currentOrg name) [] s
  = mkRun [s] s (inl denied).
Proof.
  intros H Hn. unfold updateOrgNameMutation, updateOrgNameSchema.
  rewrite Hn. by_gate H.
Qed.

Lemma exec_updateOrgImage_denied caller currentOrg image s :
  privileged s currentOrg caller = false ->
  image_issues image = [] ->
  exec (updateOrgImageMutation caller currentOrg image) [] s
  = mkRun [s] s (inl denied).
Proof.
  intros H Hi. unfold updateOrgImageMutation, updateOrgImageSchema.
  rewrite Hi. by_gate H.
Qed.

Lemma exec_updateMemberRole_denied caller currentOrg memberId s :
  privileged s currentOrg caller = false ->
  exec (updateMemberRoleMutation caller currentOrg memberId Member) [] s
  = mkRun [s] s (inl denied).
Proof. intros H. unfold updateMemberRoleMutation. by_gate H. Qed.

Lemma exec_removeUser_denied caller currentOrg userId s :
  privileged s currentOrg caller = false ->
  exec (removeUserMutation caller currentOrg userId) [] s
  = mkRun [s] s (inl denied).
Proof. intros H. unfold removeUserMutation. by_gate H. Qed.

Lemma exec_declineOrgRequest_denied caller currentOrg requestId s :
  privileged s currentOrg caller = false ->
  exec (declineOrgRequestMutation caller currentOrg requestId) [] s
  = mkRun [s] s (inl denied).
Proof. intros H. unfold declineOrgRequestMutation. by_gate H. Qed.

Lemma safeParse_issues {A : Type} (issues : list ZodIssue) (data : A) :
  issues <> [] -> safeParse issues data = inl issues.
Proof. destruct issues; [congruence | reflexivity]. Qed.

Lemma exec_updateOrgName_invalid caller currentOrg name faults s :
  name_issues name <> [] ->
  exec (updateOrgNameMutation caller currentOrg name) faults s
  = mkRun [] s
      (inl (Error "Invalid organization data" (Some (name_issues name)))).
Proof.
  intros Hn. unfold updateOrgNameMutation, updateOrgNameSchema.
  now rewrite (safeParse_issues _ _ Hn).
Qed.

Lemma exec_updateOrgImage_invalid caller currentOrg image faults s :
  image_issues image <> [] ->
  exec (updateOrgImageMutation caller currentOrg image) faults s
  = mkRun [] s
      (inl (Error "Invalid organization data" (Some (image_issues image)))).
Proof.
  intros Hi. unfold updateOrgImageMutation, updateOrgImageSchema.
  now rewrite (safeParse_issues _ _ Hi).
Qed.

Lemma exec_createOrg_invalid caller name image faults s :
  (name_issues name ++ image_issues image)%list <> [] ->
  exec (createOrgMutation caller name image) faults s
  = mkRun [] s
      (inl (Error "Invalid organization data"
              (Some (name_issues name ++ image_issues image)%list))).
Proof.
  intros Hn. unfold createOrgMutation, createOrgSchema. cbn [new_name new_image].
  now rewrite (safeParse_issues _ _ Hn).
Qed.

Lemma exec_updateMemberRole_not_owner caller currentOrg memberId s :
  isOwner currentOrg caller = false ->
  exec (updateMemberRoleMutation caller currentOrg memberId Admin) [] s
  = mkRun [s] s (inl owner_only).
Proof.
  unfold isOwner. intros H. unfold updateMemberRoleMutation.
  cbn. rewrite H. reflexivity.
Qed.

Lemma exec_updateMemberRole_owner caller currentOrg memberId role s :
  isOwner currentOrg caller = true ->
  exec (updateMemberRoleMutation caller currentOrg memberId role) [] s
  = let s' := mkStore (orgs s)
                (update_where
                   (member_is memberId (organizations.id currentOrg))
                   (set_role role) (members s))
                (requests s) in
    mkRun [s; s'] s' (inr tt).
Proof.
  unfold isOwner. intros H. unfold updateMemberRoleMutation.
  cbn. rewrite H, andb_false_r. reflexivity.
Qed.

Lemma exec_updateMemberRole_demote caller currentOrg memberId s :
  privileged s currentOrg caller = true ->
  exec (updateMemberRoleMutation caller currentOrg memberId Member) [] s
  = let s' := mkStore (orgs s)
                (update_where
                   (member_is memberId (organizations.id currentOrg))
                   (set_role Member) (members s))
                (requests s) in
    mkRun [s; s'] s' (inr tt).
Proof. intros H. unfold updateMemberRoleMutation. by_gate H. Qed.

Lemma exec_updateOrgName_privileged caller currentOrg name s :
  privileged s currentOrg caller = true ->
  name_issues name = [] ->
  exec (updateOrgNameMutation caller currentOrg name) [] s
  = let s' := mkStore
                (update_where (org_is (organizations.id currentOrg))
                   (set_name name) (orgs s))
                (members s) (requests s) in
    mkRun [s; s'] s' (inr tt).
Proof.
  intros H Hn. unfold updateOrgNameMutation, updateOrgNameSchema.
  rewrite Hn. by_gate H.
Qed.

Lemma exec_updateOrgImage_privileged caller currentOrg image s :
  privileged s currentOrg caller = true ->
  image_issues image = [] ->
  exec (updateOrgImageMutation caller currentOrg image) [] s
  = let s' := mkStore
                (update_where (org_is (organizations.id currentOrg))
                   (set_image image) (orgs s))
                (members s) (requests s) in
    mkRun [s; s'] s' (inr tt).
Proof.
  intros H Hi. unfold updateOrgImageMutation, updateOrgImageSchema.
  rewrite Hi. by_gate H.
Qed.

Lemma exec_removeUser_privileged caller currentOrg userId s :
  privileged s currentOrg caller = true ->
  exec (removeUserMutation caller currentOrg userId) [] s
  = let s' := mkStore (orgs s)
                (delete_where
                   (member_is userId (organizations.id currentOrg))
                   (members s))
                (requests s) in
    mkRun [s; s'] s' (inr tt).
Proof. intros H. unfold removeUserMutation. by_gate H. Qed.

Lemma exec_declineOrgRequest_privileged caller currentOrg requestId s :
  privileged s currentOrg caller = true ->
  exec (declineOrgRequestMutation caller currentOrg requestId) [] s
  = let s' := mkStore (orgs s) (members s)
                (delete_where (request_is requestId) (requests s)) in
    mkRun [s; s'] s' (inr tt).
Proof. intros H. unfold declineOrgRequestMutation. by_gate H. Qed.

Lemma find_absent {A : Type} (p : A -> bool) (l : list A) :
  existsb p l = false -> find p l = None.
Proof.
  intros H. pose proof (truthy_find p l) as T. rewrite H in T.
  destruct (find p l); [discriminate | reflexivity].
Qed.

Lemma find_present {A : Type} (p : A -> bool) (l : list A) (a : A) :
  find p l = Some a -> existsb p l = true.
Proof. intros H. rewrite <- truthy_find, H. reflexivity. Qed.

Lemma exec_acceptOrgRequest_not_found caller currentOrg requestId s :
  privileged s currentOrg caller = true ->
  request_exists requestId s = false ->
  exec (acceptOrgRequestMutation caller currentOrg requestId) [] s
  = mkRun [s; s] s (inl (Error not_found_msg None)).
Proof.
  intros H Hr. apply find_absent in Hr.
  unfold acceptOrgRequestMutation.
  cbn. rewrite gate_privileged, H. cbn. rewrite Hr. reflexivity.
Qed.

Lemma exec_acceptOrgRequest_found caller currentOrg requestId request s :
  privileged s currentOrg caller = true ->
  find (request_is requestId) (requests s) = Some request ->
  is_member (orgRequests.userId request) (organizations.id currentOrg) s
  = false ->
  exec (acceptOrgRequestMutation caller currentOrg requestId) [] s
  = let s1 := mkStore (orgs s)
                (members s ++ [accepted_row currentOrg request])
                (requests s) in
    let s2 := mkStore (orgs s) (members s1)
                (delete_where (request_is requestId) (requests s)) in
    mkRun [s; s; s1; s2] s2 (inr tt).
Proof.
  intros H Hr Hm. unfold is_member in Hm.
  unfold acceptOrgRequestMutation.
  cbn. rewrite gate_privileged, H. cbn. rewrite Hr. cbn.
  rewrite Hm. reflexivity.
Qed.

Lemma exec_acceptOrgRequest_delete_fails
  caller currentOrg requestId request s :
  privileged s currentOrg caller = true ->
  find (request_is requestId) (requests s) = Some request ->
  is_member (orgRequests.userId request) (organizations.id currentOrg) s
  = false ->
  exec (acceptOrgRequestMutation caller currentOrg requestId)
    [false; false; false; true] s
  = let s1 := mkStore (orgs s)
                (members s ++ [accepted_row currentOrg request])
                (requests s) in
    mkRun [s; s; s1] s1 (inl (DatabaseError connection_failure)).
Proof.
  intros H Hr Hm. unfold is_member in Hm.
  unfold acceptOrgRequestMutation.
  cbn. rewrite gate_privileged, H. cbn. rewrite Hr. cbn.
  rewrite Hm. reflexivity.
Qed.

(** Whatever the caller, the request id and the failures of the store,
    a state of the run in which the join requests differ from those at
    its start already holds the membership row of the request. *)
Lemma acceptOrgRequest_consumes_after_insert
  caller currentOrg requestId faults s st :
  In st (s :: seen (exec (acceptOrgRequestMutation caller currentOrg
                            requestId) faults s)) ->
  requests st <> requests s ->
  exists request,
    find (request_is requestId) (requests s) = Some request
    /\ members st = (members s ++ [accepted_row currentOrg request])%list.
Proof.
  unfold acceptOrgRequestMutation.
  destruct faults as [|f1 [|f2 [|f3 [|f4 faults]]]];
    try destruct f1; try destruct f2; try destruct f3; try destruct f4;
    cbn; rewrite ?gate_privileged;
    destruct (privileged s currentOrg caller); cbn;
    destruct (find (request_is requestId) (requests s))
      as [request|] eqn:Hr; cbn;
    try match goal with
        | |- context [if existsb ?p ?l then _ else _] =>
            destruct (existsb p l); cbn
        end;
    intros H Hn;
    repeat (destruct H as [H|H]; [subst st; cbn in *; try congruence|]);
    try contradiction;
    exists request; split; reflexivity.
Qed.

Lemma createOrgSchema_valid caller name image :
  valid_name name -> is_url image = true ->
  createOrgSchema (mkNewOrg name image (user.id caller))
  = inr (mkNewOrg name image (user.id caller)).
Proof.
  intros Hn Hi. unfold createOrgSchema, image_issues.
  cbn [new_name new_image].
  now rewrite (name_issues_valid _ Hn), Hi.
Qed.

Lemma exec_createOrg_ok caller name image s :
  valid_name name -> is_url image = true ->
  has_org (gen_random_uuid s) s = false ->
  is_member (user.id caller) (gen_random_uuid s) s = false ->
  exec (createOrgMutation caller name image) [] s
  = mkRun [org_inserted caller name image s;
           owner_inserted caller name image s]
      (owner_inserted caller name image s)
      (inr (created_org caller name image s)).
Proof.
  intros Hn Hi Ho Hm. unfold has_org in Ho. unfold is_member in Hm.
  unfold createOrgMutation. rewrite (createOrgSchema_valid _ _ _ Hn Hi).
  cbn. rewrite Ho. cbn. rewrite Hm. reflexivity.
Qed.

Lemma exec_createOrg_second_insert_fails caller name image s :
  valid_name name -> is_url image = true ->
  has_org (gen_random_uuid s) s = false ->
  exec (createOrgMutation caller name image) [false; true] s
  = mkRun [org_inserted caller name image s]
      (org_inserted caller name image s)
      (inl (DatabaseError connection_failure)).
Proof.
  intros Hn Hi Ho. unfold has_org in Ho.
  unfold createOrgMutation. rewrite (createOrgSchema_valid _ _ _ Hn Hi).
  cbn. rewrite Ho. reflexivity.
Qed.

Lemma exec_sendOrgRequest_new caller orgId s :
  has_org orgId s = true ->
  request_exists (gen_random_uuid s) s = false ->
  existsb (request_for orgId (user.id caller)) (requests s) = false ->
  exec (sendOrgRequestMutation caller orgId) [] s
  = let s' := mkStore (orgs s) (members s)
                (requests s
                 ++ [orgRequests.mk (gen_random_uuid s) (user.id caller)
                       orgId]) in
    mkRun [s'] s' (inr tt).
Proof.
  unfold has_org, request_exists. intros Ho Hi Hp.
  unfold sendOrgRequestMutation.
  cbn. rewrite Hi, Hp, Ho. reflexivity.
Qed.



Lemma member_is_refl (m o : Id) (r : Role) :
  member_is m o (membersToOrganizations.mk m o r) = true.
Proof. unfold member_is. cbn. now rewrite !id_eqb_refl. Qed.

Lemma name_issues_not_valid (name : string) :
  ~ valid_name name -> name_issues name <> [].
Proof.
  intros H.
  destruct (name_issues_invalid name) as (i & rest & E & _).
  - unfold valid_name in H. lia.
  - rewrite E. discriminate.
Qed.

Lemma image_issues_invalid (image : string) :
  is_url image = false -> image_issues image <> [].
Proof. unfold image_issues. intros ->. discriminate. Qed.

Lemma image_issues_valid (image : string) :
  is_url image = true -> image_issues image = [].
Proof. unfold image_issues. now intros ->. Qed.

Lemma isOwner_false currentOrg caller :
  organizations.ownerId currentOrg <> user.id caller ->
  isOwner currentOrg caller = false.
Proof. intros H. now apply String.eqb_neq. Qed.

Lemma isOwner_true currentOrg caller :
  organizations.ownerId currentOrg = user.id caller ->
  isOwner currentOrg caller = true.
Proof. intros H. now apply String.eqb_eq. Qed.

(** ** The claims *)

(** C1: only the owner may delete the organization or promote a member to
    Admin.  A caller who is not the owner recorded on the organization
    gets the not-authorized error from [deleteOrgMutation] and from
    [updateMemberRoleMutation] with role Admin, and the store is left as
    it was, whatever membership rows the caller holds; for the owner the
    delete runs (with its cascade) and the role is set. *)
Theorem owner_only_delete_and_promote
  (caller : user.t) (currentOrg : organizations.row) (memberId : Id)
  (s : Store) :
  (organizations.ownerId currentOrg <> user.id caller ->
   run (deleteOrgMutation caller currentOrg) s = (s, inl owner_only)
   /\ run (updateMemberRoleMutation caller currentOrg memberId Admin) s
      = (s, inl owner_only)
   /\ kind_of owner_only = NotAuthorized)
  /\ (organizations.ownerId currentOrg = user.id caller ->
      run (deleteOrgMutation caller currentOrg) s
      = (delete_cascade (organizations.id currentOrg) s, inr tt)
      /\ run (updateMemberRoleMutation caller currentOrg memberId Admin) s
         = (mkStore (orgs s)
              (update_where
                 (member_is memberId (organizations.id currentOrg))
                 (set_role Admin) (members s))
              (requests s), inr tt)).
Proof.
  split; intros H.
  - apply isOwner_false in H. unfold run.
    rewrite (exec_deleteOrg_not_owner _ _ _ H).
    rewrite (exec_updateMemberRole_not_owner _ _ _ _ H).
    repeat split.
  - apply isOwner_true in H. unfold run.
    rewrite (exec_deleteOrg_owner _ _ _ H).
    rewrite (exec_updateMemberRole_owner _ _ _ _ _ H).
    split; reflexivity.
Qed.

(** C2 (amended): a caller who is neither the owner nor the holder of an
    Admin membership row of the current organization gets the
    not-authorized error, with the store left as it was, from
    [updateMemberRoleMutation] to Member, [removeUserMutation] and
    [declineOrgRequestMutation], and from [updateOrgNameMutation] and
    [updateOrgImageMutation] when the payload passes validation; a payload
    that fails validation is rejected with the validation error first,
    the store again left as it was.  A privileged caller with a valid
    payload passes the gate: the statement runs and the mutation
    returns. *)
Theorem privileged_gate
  (caller : user.t) (currentOrg : organizations.row) (s : Store) :
  (privileged s currentOrg caller = false ->
   (forall name, valid_name name ->
      run (updateOrgNameMutation caller currentOrg name) s
      = (s, inl denied))
   /\ (forall name, ~ valid_name name ->
         run (updateOrgNameMutation caller currentOrg name) s
         = (s, inl (Error "Invalid organization data"
                      (Some (name_issues name)))))
   /\ (forall image, is_url image = true ->
         run (updateOrgImageMutation caller currentOrg image) s
         = (s, inl denied))
   /\ (forall image, is_url image = false ->
         run (updateOrgImageMutation caller currentOrg image) s
         = (s, inl (Error "Invalid organization data"
                      (Some (image_issues image)))))
   /\ (forall memberId,
         run (updateMemberRoleMutation caller currentOrg memberId Member) s
         = (s, inl denied))
   /\ (forall userId,
         run (removeUserMutation caller currentOrg userId) s
         = (s, inl denied))
   /\ (forall requestId,
         run (declineOrgRequestMutation caller currentOrg requestId) s
         = (s, inl denied))
   /\ kind_of denied = NotAuthorized)
  /\ (privileged s currentOrg caller = true ->
      (forall name, valid_name name ->
         run (updateOrgNameMutation caller currentOrg name) s
         = (mkStore
              (update_where (org_is (organizations.id currentOrg))
                 (set_name name) (orgs s))
              (members s) (requests s), inr tt))
      /\ (forall image, is_url image = true ->
            run (updateOrgImageMutation caller currentOrg image) s
            = (mkStore
                 (update_where (org_is (organizations.id currentOrg))
                    (set_image image) (orgs s))
                 (members s) (requests s), inr tt))
      /\ (forall memberId,
            run (updateMemberRoleMutation caller currentOrg memberId
                   Member) s
            = (mkStore (orgs s)
                 (update_where
                    (member_is memberId (organizations.id currentOrg))
                    (set_role Member) (members s))
                 (requests s), inr tt))
      /\ (forall userId,
            run (removeUserMutation caller currentOrg userId) s
            = (mkStore (orgs s)
                 (delete_where
                    (member_is userId (organizations.id currentOrg))
                    (members s))
                 (requests s), inr tt))
      /\ (forall requestId,
            run (declineOrgRequestMutation caller currentOrg requestId) s
            = (mkStore (orgs s) (members s)
                 (delete_where (request_is requestId) (requests s)),
               inr tt))).
Proof.
  split; intros H; unfold run.
  - repeat split; intros.
    + rewrite exec_updateOrgName_denied; auto using name_issues_valid.
    + rewrite exec_updateOrgName_invalid;
        auto using name_issues_not_valid.
    + rewrite exec_updateOrgImage_denied; auto using image_issues_valid.
    + rewrite exec_updateOrgImage_invalid;
        auto using image_issues_invalid.
    + rewrite exec_updateMemberRole_denied; auto.
    + rewrite exec_removeUser_denied; auto.
    + rewrite exec_declineOrgRequest_denied; auto.
  - repeat split; intros.
    + rewrite exec_updateOrgName_privileged;
        auto using name_issues_valid.
    + rewrite exec_updateOrgImage_privileged;
        auto using image_issues_valid.
    + rewrite exec_updateMemberRole_demote; auto.
    + rewrite exec_removeUser_privileged; auto.
    + rewrite exec_declineOrgRequest_privileged; auto.
Qed.

(** C3 (amended): a [createOrgMutation] call with a valid name and image,
    a generated id that no organization row bears and for which the owner
    holds no membership row, answered by the store at both inserts,
    returns the new organization row and ends in a store that holds it
    and exactly one membership row of the owner for it, with role Admin.
    The two inserts are separate statements: the store after the first
    holds the organization and no membership row of the owner, and a
    failure of the store at the second insert ends the run in that
    state. *)
Theorem createOrg_rows
  (caller : user.t) (name image : string) (s : Store)
  (Hname : valid_name name) (Himage : is_url image = true)
  (Hfresh : has_org (gen_random_uuid s) s = false)
  (Hnew : is_member (user.id caller) (gen_random_uuid s) s = false) :
  let r := exec (createOrgMutation caller name image) [] s in
  let created := created_org caller name image s in
  let between := org_inserted caller name image s in
  outcome r = inr created
  /\ In created (orgs (final r))
  /\ has_org (organizations.id created) (final r) = true
  /\ memberships_of (user.id caller) (organizations.id created) (final r)
     = 1
  /\ count_where
       (member_is_role (user.id caller) (organizations.id created) Admin)
       (members (final r)) = 1
  /\ seen r = [between; final r]
  /\ has_org (organizations.id created) between = true
  /\ memberships_of (user.id caller) (organizations.id created) between
     = 0
  /\ exec (createOrgMutation caller name image) [false; true] s
     = mkRun [between] between (inl (DatabaseError connection_failure)).
Proof.
  intros r created between. subst r.
  rewrite (exec_createOrg_ok _ _ _ _ Hname Himage Hfresh Hnew).
  rewrite (exec_createOrg_second_insert_fails _ _ _ _ Hname Himage Hfresh).
  assert (Hin : has_org (organizations.id created) between = true).
  { unfold has_org, between, org_inserted. cbn [orgs].
    rewrite existsb_app. cbn. unfold org_is at 2. cbn.
    now rewrite id_eqb_refl, orb_true_r. }
  assert (Hzero : memberships_of (user.id caller)
                    (organizations.id created) between = 0).
  { unfold memberships_of, between, org_inserted. cbn [members].
    now apply count_where_absent. }
  cbn [outcome final seen]. repeat split; try assumption.
  - unfold owner_inserted. cbn [orgs]. apply in_or_app. right. now left.
  - unfold memberships_of, owner_inserted. cbn [members].
    rewrite count_where_app.
    unfold memberships_of, between, org_inserted in Hzero.
    cbn [members] in Hzero. rewrite Hzero.
    unfold count_where, owner_row. cbn.
    now rewrite member_is_refl.
  - unfold owner_inserted. cbn [members].
    rewrite count_where_app.
    rewrite (count_where_absent
               (member_is_role (user.id caller)
                  (organizations.id created) Admin)).
    + unfold count_where, owner_row, member_is_role. cbn.
      now rewrite member_is_refl.
    + unfold is_member in Hnew.
      destruct (existsb (member_is_role _ _ _) (members s)) eqn:E;
        [|reflexivity].
      apply existsb_exists in E as (x & Hx & Hp).
      unfold member_is_role in Hp. apply andb_true_iff in Hp as [Hp _].
      assert (existsb (member_is (user.id caller) (gen_random_uuid s))
                (members s) = true)
        by (apply existsb_exists; eauto).
      congruence.
Qed.

(** C4 (amended): when a privileged caller accepts a request id whose row
    exists, the applicant holding no membership row of the caller's
    organization and the store answering every statement, the mutation
    returns, the rows with that request id are deleted and no other, and
    one membership row with role Member is appended for the applicant.
    Whatever fails, the request is never consumed before the membership
    row is in the store.  The insert and the delete are separate
    statements: in between, the store holds the membership row with the
    request still live, and a failure of the store at the delete ends the
    run in that state. *)
Theorem acceptOrgRequest_effects
  (caller : user.t) (currentOrg : organizations.row) (requestId : Id)
  (request : orgRequests.row) (s : Store)
  (Hpriv : privileged s currentOrg caller = true)
  (Hreq : find (request_is requestId) (requests s) = Some request)
  (Hnew : is_member (orgRequests.userId request)
            (organizations.id currentOrg) s = false) :
  let r := exec (acceptOrgRequestMutation caller currentOrg requestId) [] s in
  let row := accepted_row currentOrg request in
  let between := mkStore (orgs s) (members s ++ [row]) (requests s) in
  outcome r = inr tt
  /\ (forall q, In q (requests (final r)) <->
                In q (requests s) /\ orgRequests.id q <> requestId)
  /\ members (final r) = (members s ++ [row])%list
  /\ membersToOrganizations.memberId row = orgRequests.userId request
  /\ membersToOrganizations.role row = Member
  /\ memberships_of (orgRequests.userId request)
       (organizations.id currentOrg) (final r) = 1
  /\ orgs (final r) = orgs s
  /\ (forall faults st,
        In st (s :: seen (exec (acceptOrgRequestMutation caller currentOrg
                                  requestId) faults s)) ->
        requests st <> requests s ->
        members st = (members s ++ [row])%list)
  /\ In between (seen r)
  /\ request_exists requestId between = true
  /\ exec (acceptOrgRequestMutation caller currentOrg requestId)
       [false; false; false; true] s
     = mkRun [s; s; between] between
         (inl (DatabaseError connection_failure)).
Proof.
  intros r row between. subst r.
  rewrite (exec_acceptOrgRequest_found _ _ _ _ _ Hpriv Hreq Hnew).
  rewrite (exec_acceptOrgRequest_delete_fails _ _ _ _ _ Hpriv Hreq Hnew).
  cbn [outcome final seen members requests orgs].
  repeat apply conj; try reflexivity.
  - intros q. unfold delete_where. rewrite filter_In.
    unfold request_is, id_eqb. rewrite negb_true_iff, String.eqb_neq.
    reflexivity.
  - unfold memberships_of. cbn [members]. rewrite count_where_app.
    rewrite count_where_absent by exact Hnew.
    unfold count_where, row, accepted_row. cbn.
    now rewrite member_is_refl.
  - intros faults st Hst Hne.
    destruct (acceptOrgRequest_consumes_after_insert _ _ _ _ _ _ Hst Hne)
      as (request' & Hf & Hm).
    rewrite Hreq in Hf. injection Hf as <-. exact Hm.
  - cbn. auto.
  - unfold request_exists, between. cbn [requests].
    now apply (find_present _ _ _ Hreq).
Qed.

(** C5: when a privileged caller accepts a request id that no join
    request row bears, the mutation throws the not-found error and the
    store is left as it was: no membership row is created and nothing is
    deleted. *)
Theorem accept_missing_request
  (caller : user.t) (currentOrg : organizations.row) (requestId : Id)
  (s : Store)
  (Hpriv : privileged s currentOrg caller = true)
  (Habsent : request_exists requestId s = false) :
  run (acceptOrgRequestMutation caller currentOrg requestId) s
  = (s, inl (Error not_found_msg None))
  /\ kind_of (Error not_found_msg None) = NotFound.
Proof.
  unfold run.
  rewrite (exec_acceptOrgRequest_not_found _ _ _ _ Hpriv Habsent).
  split; reflexivity.
Qed.


(** C7: when a privileged caller declines a request id, the mutation
    returns, no join request row bears that id afterwards, every other
    join request row is kept, and the membership and organization rows
    are untouched.  When no row bears the id the mutation still returns
    and the store is left as it was, where accepting the same id throws
    the not-found error. *)
Theorem declineOrgRequest_effects
  (caller : user.t) (currentOrg : organizations.row) (requestId : Id)
  (s : Store)
  (Hpriv : privileged s currentOrg caller = true) :
  let r := run (declineOrgRequestMutation caller currentOrg requestId) s in
  snd r = inr tt
  /\ request_exists requestId (fst r) = false
  /\ (forall q, In q (requests (fst r)) <->
                In q (requests s) /\ orgRequests.id q <> requestId)
  /\ members (fst r) = members s
  /\ orgs (fst r) = orgs s
  /\ (request_exists requestId s = false ->
      r = (s, inr tt)
      /\ run (acceptOrgRequestMutation caller currentOrg requestId) s
         = (s, inl (Error not_found_msg None))).
Proof.
  unfold run.
  rewrite (exec_declineOrgRequest_privileged _ _ _ _ Hpriv).
  cbn [fst snd final outcome members orgs requests].
  repeat apply conj; try reflexivity.
  - apply delete_where_gone.
  - intros q. unfold delete_where. rewrite filter_In.
    unfold request_is, id_eqb. rewrite negb_true_iff, String.eqb_neq.
    reflexivity.
  - intros Habsent.
    rewrite (exec_acceptOrgRequest_not_found _ _ _ _ Hpriv Habsent).
    unfold request_exists in Habsent.
    rewrite (delete_where_absent _ _ Habsent), store_eta.
    split; reflexivity.
Qed.

(** C8: for a name shorter than 3 or longer than 50 characters,
    [createOrgMutation] and [updateOrgNameMutation] throw the validation
    error, whose cause starts with an issue on the field [name], and the
    store is left as it was, whoever calls and whatever the image. *)
Theorem name_length_validation (name : string)
  (Hlen : String.length name < 3 \/ 50 < String.length name) :
  (forall caller image s,
     exists issue rest,
       run (createOrgMutation caller name image) s
       = (s, inl (Error "Invalid organization data"
                    (Some (issue :: rest))))
       /\ path issue = ["name"]
       /\ kind_of (Error "Invalid organization data"
                     (Some (issue :: rest))) = ValidationError)
  /\ (forall caller currentOrg s,
        exists issue rest,
          run (updateOrgNameMutation caller currentOrg name) s
          = (s, inl (Error "Invalid organization data"
                       (Some (issue :: rest))))
          /\ path issue = ["name"]
          /\ kind_of (Error "Invalid organization data"
                        (Some (issue :: rest))) = ValidationError).
Proof.
  destruct (name_issues_invalid name Hlen) as (issue & rest & E & Hp).
  split; intros.
  - exists issue, (rest ++ image_issues image)%list. unfold run.
    rewrite exec_createOrg_invalid by (rewrite E; discriminate).
    rewrite E. repeat apply conj; try reflexivity. exact Hp.
  - exists issue, rest. unfold run.
    rewrite exec_updateOrgName_invalid by (rewrite E; discriminate).
    rewrite E. repeat apply conj; try reflexivity. exact Hp.
Qed.

(** C9: the membership row a successful [acceptOrgRequestMutation] inserts
    carries the id of the caller's current organization, not the
    organization id stored on the join request.  When the two differ, the
    applicant becomes a member of the caller's organization, gains no
    membership row of the organization the request names, and the request
    row is deleted. *)
Theorem acceptOrgRequest_uses_current_org
  (caller : user.t) (currentOrg : organizations.row) (requestId : Id)
  (request : orgRequests.row) (s : Store)
  (Hpriv : privileged s currentOrg caller = true)
  (Hreq : find (request_is requestId) (requests s) = Some request)
  (Hnew : is_member (orgRequests.userId request)
            (organizations.id currentOrg) s = false) :
  let r := run (acceptOrgRequestMutation caller currentOrg requestId) s in
  r = (mkStore (orgs s)
         (members s
          ++ [membersToOrganizations.mk (orgRequests.userId request)
                (organizations.id currentOrg) Member])
         (delete_where (request_is requestId) (requests s)),
       inr tt)
  /\ is_member (orgRequests.userId request) (organizations.id currentOrg)
       (fst r) = true
  /\ ~ In request (requests (fst r))
  /\ (orgRequests.organizationId request <> organizations.id currentOrg ->
      memberships_of (orgRequests.userId request)
        (orgRequests.organizationId request) (fst r)
      = memberships_of (orgRequests.userId request)
          (orgRequests.organizationId request) s).
Proof.
  unfold run.
  rewrite (exec_acceptOrgRequest_found _ _ _ _ _ Hpriv Hreq Hnew).
  cbn [fst final outcome]. repeat apply conj; try reflexivity.
  - unfold is_member, accepted_row. cbn [members].
    rewrite existsb_app. cbn [existsb].
    now rewrite member_is_refl, !orb_true_r.
  - cbn [requests]. unfold delete_where. rewrite filter_In.
    apply find_some in Hreq as [_ Hreq]. rewrite Hreq. cbn.
    intros [_ Hf]. discriminate.
  - intros Hne. unfold memberships_of. cbn [members].
    rewrite count_where_app. unfold count_where at 2. cbn.
    unfold member_is at 2. cbn.
    apply String.eqb_neq in Hne. rewrite String.eqb_sym in Hne.
    unfold id_eqb. rewrite Hne, andb_false_r. cbn. lia.
Qed.

(** C10: [declineOrgRequestMutation] matches the join request row by its
    id alone.  For every join request row of the store, whatever
    organization it names, a caller who is owner or Admin of any current
    organization declines it successfully and the row is gone. *)
Theorem declineOrgRequest_any_org
  (caller : user.t) (currentOrg : organizations.row)
  (request : orgRequests.row) (s : Store)
  (Hpriv : privileged s currentOrg caller = true)
  (Hin : In request (requests s)) :
  let r := run (declineOrgRequestMutation caller currentOrg
                  (orgRequests.id request)) s in
  snd r = inr tt
  /\ ~ In request (requests (fst r))
  /\ request_exists (orgRequests.id request) (fst r) = false.
Proof.
  unfold run.
  rewrite (exec_declineOrgRequest_privileged _ _ _ _ Hpriv).
  cbn. repeat apply conj; try reflexivity.
  - unfold delete_where. rewrite filter_In.
    unfold request_is. rewrite id_eqb_refl. cbn. intros [_ Hf].
    discriminate.
  - apply delete_where_gone.
Qed.

(** ** Further properties of the mutations *)

Lemma privileged_owner s currentOrg caller :
  isOwner currentOrg caller = true -> privileged s currentOrg caller = true.
Proof. unfold privileged. now intros ->. Qed.

Lemma privileged_not_owner s currentOrg caller :
  isOwner currentOrg caller = false ->
  privileged s currentOrg caller = isAdmin s currentOrg caller.
Proof. unfold privileged. now intros ->. Qed.

Lemma exec_acceptOrgRequest_denied caller currentOrg requestId s :
  privileged s currentOrg caller = false ->
  exec (acceptOrgRequestMutation caller currentOrg requestId) [] s
  = mkRun [s] s (inl denied).
Proof. intros H. unfold acceptOrgRequestMutation. by_gate H. Qed.

(** X1: an image that is not a URL makes [createOrgMutation] and
    [updateOrgImageMutation] throw the validation error, with the
    "Invalid image URL" issue on the field [image] in its cause, before
    any statement is issued: whoever calls, whatever the name, and even
    when the store is unreachable. *)
Theorem image_url_validation (image : string)
  (Hurl : is_url image = false) :
  let issue := mkIssue "invalid_string" ["image"] "Invalid image URL" in
  (forall caller name faults s,
     exists issues,
       exec (createOrgMutation caller name image) faults s
       = mkRun [] s (inl (Error "Invalid organization data" (Some issues)))
       /\ In issue issues
       /\ kind_of (Error "Invalid organization data" (Some issues))
          = ValidationError)
  /\ (forall caller currentOrg faults s,
        exec (updateOrgImageMutation caller currentOrg image) faults s
        = mkRun [] s
            (inl (Error "Invalid organization data" (Some [issue])))).
Proof.
  intros issue.
  assert (Hi : image_issues image = [issue])
    by (unfold image_issues; now rewrite Hurl).
  split; intros.
  - exists (name_issues name ++ [issue])%list.
    rewrite exec_createOrg_invalid; rewrite Hi.
    + repeat apply conj; try reflexivity.
      apply in_or_app. right. now left.
    + intros E. apply app_eq_nil in E as [_ E]. discriminate.
  - rewrite exec_updateOrgImage_invalid; rewrite Hi;
      [reflexivity | discriminate].
Qed.

(** X2: [deleteOrgMutation] refuses a caller who is not the owner without
    issuing any statement, so the refusal does not depend on the store
    being reachable.  [updateMemberRoleMutation] with role Admin looks up
    the caller's membership before it tests ownership: when that lookup
    fails the caller gets the store's error, and the not-owner error only
    when the lookup is answered.  In every case nothing is written. *)
Theorem owner_check_and_store_failure
  (caller : user.t) (currentOrg : organizations.row) (memberId : Id)
  (faults : list bool) (s : Store)
  (Hnot : organizations.ownerId currentOrg <> user.id caller) :
  exec (deleteOrgMutation caller currentOrg) faults s
  = mkRun [] s (inl owner_only)
  /\ exec (updateMemberRoleMutation caller currentOrg memberId Admin)
       (true :: faults) s
     = mkRun [] s (inl (DatabaseError connection_failure))
  /\ exec (updateMemberRoleMutation caller currentOrg memberId Admin)
       (false :: faults) s
     = mkRun [s] s (inl owner_only).
Proof.
  apply isOwner_false in Hnot. unfold isOwner in Hnot.
  repeat apply conj.
  - unfold deleteOrgMutation. now rewrite Hnot.
  - reflexivity.
  - unfold updateMemberRoleMutation. cbn. now rewrite Hnot.
Qed.

(** X3: [acceptOrgRequestMutation] tests the caller's privilege before it
    looks the request up: a caller who is neither owner nor Admin gets the
    not-authorized error whether or not a row bears the request id, and
    the store is left as it was. *)
Theorem unprivileged_accept_denied
  (caller : user.t) (currentOrg : organizations.row) (requestId : Id)
  (s : Store)
  (Hunpriv : privileged s currentOrg caller = false) :
  run (acceptOrgRequestMutation caller currentOrg requestId) s
  = (s, inl denied)
  /\ kind_of denied = NotAuthorized
  /\ kind_of denied <> NotFound.
Proof.
  unfold run. rewrite (exec_acceptOrgRequest_denied _ _ _ _ Hunpriv).
  repeat apply conj; [reflexivity | reflexivity | discriminate].
Qed.

(** X4: [sendOrgRequestMutation] has no authorization gate: whoever the
    caller, against a store that answers it returns whenever the
    organization id names an organization of the store, and its only
    failure is the store's foreign-key error, thrown with nothing written
    when the id names no organization.  It leaves organizations and
    memberships as they were, and either leaves the join requests as they
    were or appends one row, which names the caller as the requesting
    user. *)
Theorem sendOrgRequest_outcomes
  (caller : user.t) (orgId : Id) (s : Store) :
  let r := run (sendOrgRequestMutation caller orgId) s in
  orgs (fst r) = orgs s
  /\ members (fst r) = members s
  /\ (requests (fst r) = requests s
      \/ requests (fst r)
         = (requests s
            ++ [orgRequests.mk (gen_random_uuid s) (user.id caller)
                  orgId])%list)
  /\ (has_org orgId s = true -> snd r = inr tt)
  /\ (snd r = inr tt
      \/ (r = (s, inl (DatabaseError foreign_key_violation))
          /\ has_org orgId s = false))
  /\ kind_of (DatabaseError foreign_key_violation) = StoreFailure.
Proof.
  unfold run, sendOrgRequestMutation, has_org. cbn.
  destruct (existsb (request_is (gen_random_uuid s)) (requests s)
            || existsb (request_for orgId (user.id caller)) (requests s));
    cbn; [repeat apply conj; auto|].
  destruct (existsb (org_is orgId) (orgs s)); cbn;
    repeat apply conj; auto; discriminate.
Qed.

Lemma update_where_map {A K : Type} (p : A -> bool) (f : A -> A)
  (k : A -> K) (l : list A) :
  (forall r, k (f r) = k r) -> map k (update_where p f l) = map k l.
Proof.
  intros Hk. unfold update_where. rewrite map_map.
  apply map_ext. intros r. destruct (p r); [apply Hk | reflexivity].
Qed.

Lemma update_where_absent {A : Type} (p : A -> bool) (f : A -> A)
  (l : list A) :
  existsb p l = false -> update_where p f l = l.
Proof.
  unfold update_where.
  induction l as [|a l IH]; simpl; intros H; [reflexivity|].
  apply orb_false_iff in H as [Ha Hl]. rewrite Ha. now rewrite IH.
Qed.

Lemma delete_where_update_where {A : Type} (p : A -> bool) (f : A -> A)
  (l : list A) :
  (forall r, p (f r) = p r) ->
  delete_where p (update_where p f l) = delete_where p l.
Proof.
  intros Hp. unfold delete_where, update_where.
  induction l as [|a l IH]; simpl; [reflexivity|].
  destruct (p a) eqn:Ha.
  - rewrite Hp, Ha. simpl. exact IH.
  - rewrite Ha. simpl. now rewrite IH.
Qed.

Lemma update_where_hit {A : Type} (p : A -> bool) (f : A -> A)
  (l : list A) (r : A) :
  (forall x, p (f x) = p x) ->
  In r (update_where p f l) -> p r = true ->
  exists x, In x l /\ p x = true /\ r = f x.
Proof.
  intros Hp Hin Hr. unfold update_where in Hin.
  apply in_map_iff in Hin as (x & Hx & Hxl).
  exists x. destruct (p x) eqn:Epx.
  - now subst r.
  - subst r. congruence.
Qed.

Lemma In_delete_where {A : Type} (p : A -> bool) (l : list A) (r : A) :
  In r (delete_where p l) <-> In r l /\ p r = false.
Proof.
  unfold delete_where. rewrite filter_In, negb_true_iff. reflexivity.
Qed.

Lemma member_is_set_role m o ro r :
  member_is m o (set_role ro r) = member_is m o r.
Proof. reflexivity. Qed.

Lemma org_is_set_name i n r : org_is i (set_name n r) = org_is i r.
Proof. reflexivity. Qed.

Lemma org_is_set_image i im r : org_is i (set_image im r) = org_is i r.
Proof. reflexivity. Qed.

(** What a role update does to the store when the gate lets it through. *)
Lemma run_updateMemberRole_cases caller currentOrg memberId role s :
  let r := run (updateMemberRoleMutation caller currentOrg memberId role) s in
  r = (s, inl owner_only)
  \/ r = (s, inl denied)
  \/ r = (mkStore (orgs s)
            (update_where
               (member_is memberId (organizations.id currentOrg))
               (set_role role) (members s))
            (requests s), inr tt).
Proof.
  unfold run.
  destruct (isOwner currentOrg caller) eqn:Ho.
  - rewrite (exec_updateMemberRole_owner _ _ _ _ _ Ho). auto.
  - destruct role.
    + rewrite (exec_updateMemberRole_not_owner _ _ _ _ Ho). auto.
    + destruct (privileged s currentOrg caller) eqn:Hp.
      * rewrite (exec_updateMemberRole_demote _ _ _ _ Hp). auto.
      * rewrite (exec_updateMemberRole_denied _ _ _ _ Hp). auto.
Qed.

(** X5: whoever calls [updateMemberRoleMutation] and whatever comes of
    it, the organizations and join requests are untouched, no membership
    row is added or removed, no row changes its member or organization,
    and every membership row other than those of the named member in the
    current organization is exactly as it was; when the mutation returns,
    the rows of the named member in the current organization all carry
    the new role. *)
Theorem updateMemberRole_frame
  (caller : user.t) (currentOrg : organizations.row) (memberId : Id)
  (role : Role) (s : Store) :
  let r := run (updateMemberRoleMutation caller currentOrg memberId role) s in
  let target := member_is memberId (organizations.id currentOrg) in
  orgs (fst r) = orgs s
  /\ requests (fst r) = requests s
  /\ map membersToOrganizations.memberId (members (fst r))
     = map membersToOrganizations.memberId (members s)
  /\ map membersToOrganizations.organizationId (members (fst r))
     = map membersToOrganizations.organizationId (members s)
  /\ delete_where target (members (fst r)) = delete_where target (members s)
  /\ (snd r = inr tt ->
      forall row, In row (members (fst r)) -> target row = true ->
                  membersToOrganizations.role row = role).
Proof.
  intros r target.
  destruct (run_updateMemberRole_cases caller currentOrg memberId role s)
    as [E|[E|E]]; fold r in E; rewrite E; cbn [fst snd orgs members requests].
  - repeat apply conj; try reflexivity. discriminate.
  - repeat apply conj; try reflexivity. discriminate.
  - repeat apply conj; try reflexivity.
    + now apply update_where_map.
    + now apply update_where_map.
    + now apply delete_where_update_where.
    + intros _ row Hin Ht.
      destruct (update_where_hit target (set_role role) (members s) row)
        as (x & _ & _ & ->); auto.
Qed.

(** X6: when a privileged caller removes a user, the mutation returns and
    the user holds no membership row of the current organization
    afterwards; every other membership row, including the user's rows in
    other organizations, is kept, and organizations and join requests are
    untouched.  Removing a user who holds no row of the current
    organization returns as well and changes nothing. *)
Theorem removeUser_effects
  (caller : user.t) (currentOrg : organizations.row) (userId : Id)
  (s : Store)
  (Hpriv : privileged s currentOrg caller = true) :
  let r := run (removeUserMutation caller currentOrg userId) s in
  snd r = inr tt
  /\ memberships_of userId (organizations.id currentOrg) (fst r) = 0
  /\ (forall row, In row (members (fst r)) <->
                  In row (members s)
                  /\ ~ (membersToOrganizations.memberId row = userId
                        /\ membersToOrganizations.organizationId row
                           = organizations.id currentOrg))
  /\ orgs (fst r) = orgs s
  /\ requests (fst r) = requests s
  /\ (is_member userId (organizations.id currentOrg) s = false ->
      fst r = s).
Proof.
  unfold run. rewrite (exec_removeUser_privileged _ _ _ _ Hpriv).
  cbn [fst snd final outcome orgs members requests].
  repeat apply conj; try reflexivity.
  - unfold memberships_of. cbn [members].
    apply count_where_absent, delete_where_gone.
  - intros row. rewrite In_delete_where. unfold member_is, id_eqb.
    rewrite andb_false_iff, <- !not_true_iff_false, !String.eqb_eq.
    split; intros [Hin Hn]; (split; [exact Hin|]).
    + intros [H1 H2]. destruct Hn as [Hn|Hn]; contradiction.
    + destruct (String.eqb_spec (membersToOrganizations.memberId row)
                  userId) as [E|E]; [right | left; exact E].
      intros E2. apply Hn. split; assumption.
  - intros Habs. unfold is_member in Habs.
    now rewrite (delete_where_absent _ _ Habs), store_eta.
Qed.

(** X7: a rename or a re-image by a privileged caller with a valid payload
    writes the one field and nothing else: the organization rows keep
    their number, order, ids and owners (and their images under a rename,
    their names under a re-image), the rows of other organizations are
    exactly as they were, the rows bearing the current organization's id
    carry the new value, and memberships and join requests are
    untouched. *)
Theorem update_org_single_field
  (caller : user.t) (currentOrg : organizations.row) (s : Store)
  (Hpriv : privileged s currentOrg caller = true) :
  (forall name, valid_name name ->
     let r := run (updateOrgNameMutation caller currentOrg name) s in
     let target := org_is (organizations.id currentOrg) in
     snd r = inr tt
     /\ map organizations.id (orgs (fst r)) = map organizations.id (orgs s)
     /\ map organizations.ownerId (orgs (fst r))
        = map organizations.ownerId (orgs s)
     /\ map organizations.image (orgs (fst r))
        = map organizations.image (orgs s)
     /\ delete_where target (orgs (fst r)) = delete_where target (orgs s)
     /\ (forall row, In row (orgs (fst r)) -> target row = true ->
                     organizations.name row = name)
     /\ members (fst r) = members s
     /\ requests (fst r) = requests s)
  /\ (forall image, is_url image = true ->
        let r := run (updateOrgImageMutation caller currentOrg image) s in
        let target := org_is (organizations.id currentOrg) in
        snd r = inr tt
        /\ map organizations.id (orgs (fst r))
           = map organizations.id (orgs s)
        /\ map organizations.ownerId (orgs (fst r))
           = map organizations.ownerId (orgs s)
        /\ map organizations.name (orgs (fst r))
           = map organizations.name (orgs s)
        /\ delete_where target (orgs (fst r)) = delete_where target (orgs s)
        /\ (forall row, In row (orgs (fst r)) -> target row = true ->
                        organizations.image row = image)
        /\ members (fst r) = members s
        /\ requests (fst r) = requests s).
Proof.
  split.
  - intros name Hn r target. subst r. unfold run.
    rewrite (exec_updateOrgName_privileged _ _ _ _ Hpriv
               (name_issues_valid _ Hn)).
    cbn [fst snd final outcome orgs members requests].
    repeat apply conj; try reflexivity;
      try (now apply update_where_map).
    + now apply delete_where_update_where.
    + intros row Hin Ht.
      destruct (update_where_hit target (set_name name) (orgs s) row)
        as (x & _ & _ & ->); auto.
  - intros image Hi r target. subst r. unfold run.
    rewrite (exec_updateOrgImage_privileged _ _ _ _ Hpriv
               (image_issues_valid _ Hi)).
    cbn [fst snd final outcome orgs members requests].
    repeat apply conj; try reflexivity;
      try (now apply update_where_map).
    + now apply delete_where_update_where.
    + intros row Hin Ht.
      destruct (update_where_hit target (set_image image) (orgs s) row)
        as (x & _ & _ & ->); auto.
Qed.

Lemma role_row_needs_membership m o ro (l : list membersToOrganizations.row) :
  existsb (member_is m o) l = false ->
  existsb (member_is_role m o ro) l = false.
Proof.
  induction l as [|a l IH]; simpl; intros H; [reflexivity|].
  apply orb_false_iff in H as [Ha Hl].
  unfold member_is_role at 1. rewrite Ha. simpl. now apply IH.
Qed.

Lemma admin_row_after_promote m o (l : list membersToOrganizations.row) :
  existsb (member_is_role m o Admin)
    (update_where (member_is m o) (set_role Admin) l)
  = existsb (member_is m o) l.
Proof.
  unfold update_where.
  induction l as [|a l IH]; simpl; [reflexivity|].
  rewrite IH. f_equal.
  destruct (member_is m o a) eqn:Ha.
  - unfold member_is_role. rewrite member_is_set_role, Ha. reflexivity.
  - unfold member_is_role. rewrite Ha. reflexivity.
Qed.

Lemma admin_row_after_demote m o (l : list membersToOrganizations.row) :
  existsb (member_is_role m o Admin)
    (update_where (member_is m o) (set_role Member) l)
  = false.
Proof.
  unfold update_where.
  induction l as [|a l IH]; simpl; [reflexivity|].
  rewrite IH, orb_false_r.
  destruct (member_is m o a) eqn:Ha.
  - unfold member_is_role. rewrite member_is_set_role, Ha. reflexivity.
  - unfold member_is_role. rewrite Ha. reflexivity.
Qed.

Lemma admin_row_after_delete m o (l : list membersToOrganizations.row) :
  existsb (member_is_role m o Admin) (delete_where (member_is m o) l)
  = false.
Proof.
  apply role_row_needs_membership, delete_where_gone.
Qed.

(** X8: nothing protects an Admin from themselves.  An Admin who is not
    the owner and removes their own membership row, or sets their own role
    to Member, succeeds and is no longer privileged: their next gated
    call, here a decline, gets the not-authorized error. *)
Theorem admin_self_revocation
  (caller : user.t) (currentOrg : organizations.row) (s : Store)
  (Hnot : organizations.ownerId currentOrg <> user.id caller)
  (Hadmin : isAdmin s currentOrg caller = true) :
  (let r := run (removeUserMutation caller currentOrg (user.id caller)) s in
   snd r = inr tt
   /\ privileged (fst r) currentOrg caller = false
   /\ forall requestId,
        run (declineOrgRequestMutation caller currentOrg requestId) (fst r)
        = (fst r, inl denied))
  /\ (let r := run (updateMemberRoleMutation caller currentOrg
                      (user.id caller) Member) s in
      snd r = inr tt
      /\ privileged (fst r) currentOrg caller = false
      /\ forall requestId,
           run (declineOrgRequestMutation caller currentOrg requestId)
             (fst r)
           = (fst r, inl denied)).
Proof.
  apply isOwner_false in Hnot.
  assert (Hpriv : privileged s currentOrg caller = true)
    by now rewrite (privileged_not_owner _ _ _ Hnot).
  split; intros r; subst r; unfold run.
  - rewrite (exec_removeUser_privileged _ _ _ _ Hpriv).
    cbn [fst snd final outcome].
    match goal with |- _ /\ privileged ?s' _ _ = _ /\ _ =>
      assert (Hlost : privileged s' currentOrg caller = false)
    end.
    { rewrite (privileged_not_owner _ _ _ Hnot). unfold isAdmin.
      cbn [members]. apply admin_row_after_delete. }
    repeat apply conj; [reflexivity | exact Hlost |].
    intros requestId.
    now rewrite (exec_declineOrgRequest_denied _ _ _ _ Hlost).
  - rewrite (exec_updateMemberRole_demote _ _ _ _ Hpriv).
    cbn [fst snd final outcome].
    match goal with |- _ /\ privileged ?s' _ _ = _ /\ _ =>
      assert (Hlost : privileged s' currentOrg caller = false)
    end.
    { rewrite (privileged_not_owner _ _ _ Hnot). unfold isAdmin.
      cbn [members]. apply admin_row_after_demote. }
    repeat apply conj; [reflexivity | exact Hlost |].
    intros requestId.
    now rewrite (exec_declineOrgRequest_denied _ _ _ _ Hlost).
Qed.

(** X9: the owner's privilege comes from the organization row alone.  Any
    privileged caller may remove the owner's membership row; the owner
    then holds no membership row of the organization and still passes
    every gate: a decline returns and so does the deletion of the
    organization. *)
Theorem owner_privilege_survives_removal
  (remover owner : user.t) (currentOrg : organizations.row) (s : Store)
  (Howner : organizations.ownerId currentOrg = user.id owner)
  (Hpriv : privileged s currentOrg remover = true) :
  let r := run (removeUserMutation remover currentOrg (user.id owner)) s in
  snd r = inr tt
  /\ is_member (user.id owner) (organizations.id currentOrg) (fst r) = false
  /\ privileged (fst r) currentOrg owner = true
  /\ (forall requestId,
        snd (run (declineOrgRequestMutation owner currentOrg requestId)
               (fst r)) = inr tt)
  /\ snd (run (deleteOrgMutation owner currentOrg) (fst r)) = inr tt.
Proof.
  apply isOwner_true in Howner. unfold run.
  rewrite (exec_removeUser_privileged _ _ _ _ Hpriv).
  cbn [fst snd final outcome].
  repeat apply conj; try reflexivity.
  - unfold is_member. cbn [members]. apply delete_where_gone.
  - now apply privileged_owner.
  - intros requestId.
    rewrite exec_declineOrgRequest_privileged
      by now apply privileged_owner.
    reflexivity.
  - now rewrite (exec_deleteOrg_owner _ _ _ Howner).
Qed.

(** X10: a promotion by the owner always returns, and afterwards the
    named user holds an Admin row of the organization exactly when they
    held a membership row of it before.  A member so promoted passes the
    gate (here, of a removal); promoting a user who holds no row of the
    organization changes nothing and grants nothing. *)
Theorem promotion_grants_privilege
  (owner : user.t) (currentOrg : organizations.row) (memberId : Id)
  (s : Store)
  (Howner : organizations.ownerId currentOrg = user.id owner) :
  let r := run (updateMemberRoleMutation owner currentOrg memberId Admin) s in
  let promoted := user.mk memberId in
  snd r = inr tt
  /\ isAdmin (fst r) currentOrg promoted
     = is_member memberId (organizations.id currentOrg) s
  /\ (is_member memberId (organizations.id currentOrg) s = true ->
      forall userId,
        snd (run (removeUserMutation promoted currentOrg userId) (fst r))
        = inr tt)
  /\ (is_member memberId (organizations.id currentOrg) s = false ->
      fst r = s).
Proof.
  apply isOwner_true in Howner. unfold run.
  rewrite (exec_updateMemberRole_owner _ _ _ _ _ Howner).
  cbn [fst snd final outcome].
  match goal with |- _ /\ isAdmin ?s' _ ?p = _ /\ _ =>
    assert (Hadm : isAdmin s' currentOrg p
                   = is_member memberId (organizations.id currentOrg) s)
  end.
  { unfold isAdmin, is_member. cbn [members user.id].
    apply admin_row_after_promote. }
  repeat apply conj; [reflexivity | exact Hadm | |].
  - intros Hm userId.
    rewrite exec_removeUser_privileged; [reflexivity|].
    unfold privileged. now rewrite Hadm, Hm, orb_true_r.
  - intros Hm. unfold is_member in Hm.
    now rewrite (update_where_absent _ _ _ Hm), store_eta.
Qed.

(** X11: an accepted applicant becomes a plain member.  After a successful
    accept, an applicant who is not the owner of the organization is not
    privileged in it: their gated calls, here a decline and a removal,
    get the not-authorized error. *)
Theorem accepted_member_not_privileged
  (caller : user.t) (currentOrg : organizations.row) (requestId : Id)
  (request : orgRequests.row) (s : Store)
  (Hpriv : privileged s currentOrg caller = true)
  (Hreq : find (request_is requestId) (requests s) = Some request)
  (Hnew : is_member (orgRequests.userId request)
            (organizations.id currentOrg) s = false)
  (Hnot : organizations.ownerId currentOrg <> orgRequests.userId request) :
  let r := run (acceptOrgRequestMutation caller currentOrg requestId) s in
  let applicant := user.mk (orgRequests.userId request) in
  snd r = inr tt
  /\ privileged (fst r) currentOrg applicant = false
  /\ (forall otherRequest,
        run (declineOrgRequestMutation applicant currentOrg otherRequest)
          (fst r)
        = (fst r, inl denied))
  /\ (forall userId,
        run (removeUserMutation applicant currentOrg userId) (fst r)
        = (fst r, inl denied)).
Proof.
  intros r applicant. subst r. unfold run.
  rewrite (exec_acceptOrgRequest_found _ _ _ _ _ Hpriv Hreq Hnew).
  cbn [fst snd final outcome].
  assert (Ho : isOwner currentOrg applicant = false)
    by now apply isOwner_false.
  match goal with |- _ /\ privileged ?s' _ _ = _ /\ _ =>
    assert (Hlow : privileged s' currentOrg applicant = false)
  end.
  { rewrite (privileged_not_owner _ _ _ Ho). unfold isAdmin.
    cbn [members user.id applicant]. rewrite existsb_app.
    rewrite (role_row_needs_membership _ _ _ _ Hnew).
    cbn [existsb]. unfold member_is_role, accepted_row, default_role.
    cbn [membersToOrganizations.role]. unfold role_eqb.
    now rewrite andb_false_r. }
  repeat apply conj; [reflexivity | exact Hlow | |]; intros x.
  - now rewrite (exec_declineOrgRequest_denied _ _ _ _ Hlow).
  - now rewrite (exec_removeUser_denied _ _ _ _ Hlow).
Qed.

(** X12: the creator of an organization is privileged in it, as its owner
    and as holder of an Admin row: after a successful create, a rename of
    the created organization by the creator returns.  A user other than
    the creator who holds no membership row for the generated id is not
    privileged in the new organization. *)
Theorem creator_is_privileged
  (caller : user.t) (name image : string) (s : Store)
  (Hname : valid_name name) (Himage : is_url image = true)
  (Hfresh : has_org (gen_random_uuid s) s = false)
  (Hnew : is_member (user.id caller) (gen_random_uuid s) s = false) :
  let r := exec (createOrgMutation caller name image) [] s in
  let created := created_org caller name image s in
  outcome r = inr created
  /\ isOwner created caller = true
  /\ isAdmin (final r) created caller = true
  /\ (forall newName, valid_name newName ->
        snd (run (updateOrgNameMutation caller created newName) (final r))
        = inr tt)
  /\ (forall other,
        user.id other <> user.id caller ->
        is_member (user.id other) (gen_random_uuid s) s = false ->
        privileged (final r) created other = false).
Proof.
  intros r created. subst r.
  rewrite (exec_createOrg_ok _ _ _ _ Hname Himage Hfresh Hnew).
  cbn [final outcome].
  assert (Ho : isOwner created caller = true)
    by (apply isOwner_true; reflexivity).
  assert (Ha : isAdmin (owner_inserted caller name image s) created caller
               = true).
  { unfold isAdmin, owner_inserted, owner_row, created, created_org.
    cbn [members organizations.id]. rewrite existsb_app. cbn [existsb].
    unfold member_is_role at 2. rewrite member_is_refl.
    cbn. now rewrite orb_true_r. }
  repeat apply conj; [reflexivity | exact Ho | exact Ha | |].
  - intros newName Hv. unfold run.
    rewrite exec_updateOrgName_privileged;
      [reflexivity | now apply privileged_owner
      | now apply name_issues_valid].
  - intros other Hne Hm.
    assert (Hoo : isOwner created other = false).
    { apply isOwner_false. unfold created, created_org. cbn. congruence. }
    rewrite (privileged_not_owner _ _ _ Hoo).
    unfold isAdmin, owner_inserted, owner_row, created, created_org.
    cbn [members organizations.id]. rewrite existsb_app.
    rewrite (role_row_needs_membership _ _ _ _ Hm). cbn [existsb orb].
    unfold member_is_role, member_is. cbn.
    apply String.eqb_neq in Hne. rewrite String.eqb_sym in Hne.
    unfold id_eqb. now rewrite Hne.
Qed.

Lemma count_where_zero {A : Type} (p : A -> bool) (l : list A) :
  count_where p l = 0 -> existsb p l = false.
Proof.
  intros H. destruct (existsb p l) eqn:E; [|reflexivity].
  apply count_where_present in E. lia.
Qed.

Lemma find_app_absent {A : Type} (p : A -> bool) (l l' : list A) :
  existsb p l = false -> find p (l ++ l') = find p l'.
Proof.
  induction l as [|a l IH]; simpl; intros H; [reflexivity|].
  apply orb_false_iff in H as [Ha Hl]. rewrite Ha. now apply IH.
Qed.

Lemma delete_where_app {A : Type} (p : A -> bool) (l l' : list A) :
  delete_where p (l ++ l') = (delete_where p l ++ delete_where p l')%list.
Proof. unfold delete_where. apply filter_app. Qed.

(** X13: a join request can be accepted once.  After a successful accept,
    accepting the same request id again throws the not-found error and
    declining it returns; either way the store stays as the first accept
    left it, so no second membership row is created. *)
Theorem accept_is_single_use
  (caller : user.t) (currentOrg : organizations.row) (requestId : Id)
  (request : orgRequests.row) (s : Store)
  (Hpriv : privileged s currentOrg caller = true)
  (Hreq : find (request_is requestId) (requests s) = Some request)
  (Hnew : is_member (orgRequests.userId request)
            (organizations.id currentOrg) s = false) :
  let s1 := fst (run (acceptOrgRequestMutation caller currentOrg requestId)
                   s) in
  run (acceptOrgRequestMutation caller currentOrg requestId) s1
  = (s1, inl (Error not_found_msg None))
  /\ run (declineOrgRequestMutation caller currentOrg requestId) s1
     = (s1, inr tt)
  /\ memberships_of (orgRequests.userId request)
       (organizations.id currentOrg) s1 = 1.
Proof.
  intros s1.
  assert (E : s1 = mkStore (orgs s)
                     (members s ++ [accepted_row currentOrg request])
                     (delete_where (request_is requestId) (requests s))).
  { unfold s1, run.
    now rewrite (exec_acceptOrgRequest_found _ _ _ _ _ Hpriv Hreq Hnew). }
  clearbody s1.
  assert (Hp1 : privileged s1 currentOrg caller = true).
  { rewrite E. unfold privileged, isAdmin. cbn [members].
    rewrite existsb_app.
    unfold privileged, isAdmin in Hpriv.
    apply orb_true_iff in Hpriv as [H|H]; rewrite H;
      now rewrite ?orb_true_r. }
  assert (Hgone : request_exists requestId s1 = false)
    by (rewrite E; apply delete_where_gone).
  unfold run.
  rewrite (exec_acceptOrgRequest_not_found _ _ _ _ Hp1 Hgone).
  rewrite (exec_declineOrgRequest_privileged _ _ _ _ Hp1).
  cbn [fst final outcome].
  repeat apply conj; try reflexivity.
  - unfold request_exists in Hgone.
    now rewrite (delete_where_absent _ _ Hgone), store_eta.
  - unfold memberships_of. rewrite E. cbn [members].
    rewrite count_where_app, (count_where_absent _ _ Hnew).
    unfold count_where, accepted_row. cbn [filter].
    now rewrite member_is_refl.
Qed.

(** X14: submitting and declining is a round trip.  When the
    organization id names an organization of the store, the caller has
    no pending request for it and the generated request id is borne by no
    row, the submission appends one row, and a decline of that id by a
    privileged caller puts the store back exactly as it was before the
    submission. *)
Theorem submit_then_decline_restores
  (applicant admin : user.t) (currentOrg : organizations.row) (orgId : Id)
  (s : Store)
  (Horg : has_org orgId s = true)
  (Hfresh : request_exists (gen_random_uuid s) s = false)
  (Hnone : pending_requests orgId (user.id applicant) s = 0)
  (Hpriv : privileged s currentOrg admin = true) :
  let s1 := fst (run (sendOrgRequestMutation applicant orgId) s) in
  requests s1
  = (requests s
     ++ [orgRequests.mk (gen_random_uuid s) (user.id applicant) orgId])%list
  /\ run (declineOrgRequestMutation admin currentOrg (gen_random_uuid s)) s1
     = (s, inr tt).
Proof.
  intros s1. subst s1. apply count_where_zero in Hnone.
  unfold run.
  rewrite (exec_sendOrgRequest_new _ _ _ Horg Hfresh Hnone).
  cbn [fst final requests]. split; [reflexivity|].
  rewrite exec_declineOrgRequest_privileged by exact Hpriv.
  cbn [final outcome orgs members requests].
  rewrite delete_where_app.
  unfold request_exists in Hfresh.
  rewrite (delete_where_absent _ _ Hfresh).
  unfold delete_where. cbn [filter]. unfold request_is at 1.
  cbn [orgRequests.id]. rewrite id_eqb_refl. cbn [negb].
  now rewrite app_nil_r, store_eta.
Qed.

(** X15: the join workflow composes.  A user who is not a member of an
    organization of the store and has no pending request for it submits
    one; a
    privileged caller of that organization accepts the generated request
    id.  Both calls return, the user ends with exactly one membership row
    of the organization, with role Member, the join requests are as they
    were before the submission, and the organizations are untouched. *)
Theorem submit_then_accept_workflow
  (applicant admin : user.t) (currentOrg : organizations.row) (s : Store)
  (Horg : has_org (organizations.id currentOrg) s = true)
  (Hfresh : request_exists (gen_random_uuid s) s = false)
  (Hnone : pending_requests (organizations.id currentOrg)
             (user.id applicant) s = 0)
  (Hnew : is_member (user.id applicant) (organizations.id currentOrg) s
          = false)
  (Hpriv : privileged s currentOrg admin = true) :
  let sent := run (sendOrgRequestMutation applicant
                     (organizations.id currentOrg)) s in
  let r := run (acceptOrgRequestMutation admin currentOrg
                  (gen_random_uuid s)) (fst sent) in
  snd sent = inr tt
  /\ snd r = inr tt
  /\ members (fst r)
     = (members s
        ++ [membersToOrganizations.mk (user.id applicant)
              (organizations.id currentOrg) Member])%list
  /\ requests (fst r) = requests s
  /\ orgs (fst r) = orgs s
  /\ memberships_of (user.id applicant) (organizations.id currentOrg)
       (fst r) = 1
  /\ pending_requests (organizations.id currentOrg) (user.id applicant)
       (fst r) = 0.
Proof.
  intros sent r. subst r.
  pose proof Hnone as Hzero. apply count_where_zero in Hnone.
  set (row := orgRequests.mk (gen_random_uuid s) (user.id applicant)
                (organizations.id currentOrg)).
  set (s1 := mkStore (orgs s) (members s) (requests s ++ [row])).
  assert (Es : sent = (s1, inr tt)).
  { unfold sent, run.
    now rewrite (exec_sendOrgRequest_new _ _ _ Horg Hfresh Hnone). }
  clearbody sent. subst sent. cbn [fst snd].
  assert (Hfind : find (request_is (gen_random_uuid s)) (requests s1)
                  = Some row).
  { unfold s1. cbn [requests]. unfold request_exists in Hfresh.
    rewrite (find_app_absent _ _ _ Hfresh). cbn [find].
    unfold request_is, row. cbn [orgRequests.id].
    now rewrite id_eqb_refl. }
  unfold run.
  rewrite (exec_acceptOrgRequest_found admin currentOrg _ row s1);
    [| exact Hpriv | exact Hfind | exact Hnew].
  cbn [fst snd final outcome orgs members requests].
  assert (Hback : delete_where (request_is (gen_random_uuid s))
                    (requests s ++ [row]) = requests s).
  { rewrite delete_where_app. unfold request_exists in Hfresh.
    rewrite (delete_where_absent _ _ Hfresh).
    unfold delete_where. cbn [filter]. unfold request_is at 1.
    unfold row at 1. cbn [orgRequests.id]. rewrite id_eqb_refl.
    cbn [negb]. apply app_nil_r. }
  repeat apply conj; try reflexivity.
  - exact Hback.
  - unfold memberships_of, s1. cbn [members].
    rewrite count_where_app, (count_where_absent _ _ Hnew).
    unfold count_where, accepted_row, row. cbn [filter orgRequests.userId].
    now rewrite member_is_refl.
  - unfold pending_requests, s1. cbn [requests]. rewrite Hback.
    exact Hzero.
Qed.

Lemma member_is_refers m o (l : list membersToOrganizations.row) :
  existsb (fun r => id_eqb (membersToOrganizations.organizationId r) o) l
  = false ->
  existsb (member_is m o) l = false.
Proof.
  induction l as [|a l IH]; simpl; intros H; [reflexivity|].
  apply orb_false_iff in H as [Ha Hl].
  unfold member_is at 1. rewrite Ha, andb_false_r. simpl. now apply IH.
Qed.

(** X16: creating and deleting is a round trip.  When the generated id is
    borne by no organization row and no membership or join request row
    refers to it, a valid create followed by the creator's delete of the
    created organization puts the store back exactly as it was: the
    delete takes the owner's membership row with the organization. *)
Theorem create_then_delete_restores
  (caller : user.t) (name image : string) (s : Store)
  (Hname : valid_name name) (Himage : is_url image = true)
  (Hfresh : has_org (gen_random_uuid s) s = false)
  (Hmembers : org_has_members (gen_random_uuid s) s = false)
  (Hrequests : org_has_requests (gen_random_uuid s) s = false) :
  let r := exec (createOrgMutation caller name image) [] s in
  let created := created_org caller name image s in
  outcome r = inr created
  /\ run (deleteOrgMutation caller created) (final r) = (s, inr tt).
Proof.
  intros r created. subst r.
  unfold org_has_members in Hmembers. unfold org_has_requests in Hrequests.
  assert (Hnew : is_member (user.id caller) (gen_random_uuid s) s = false)
    by now apply member_is_refers.
  rewrite (exec_createOrg_ok _ _ _ _ Hname Himage Hfresh Hnew).
  cbn [final outcome]. split; [reflexivity|].
  unfold run.
  rewrite exec_deleteOrg_owner by (apply isOwner_true; reflexivity).
  cbn [final outcome]. f_equal.
  unfold delete_cascade, owner_inserted.
  cbn [orgs members requests organizations.id created created_org].
  unfold has_org in Hfresh.
  rewrite existsb_app. cbn [existsb]. unfold org_is at 2.
  cbn [organizations.id]. rewrite id_eqb_refl, orb_true_r.
  rewrite !delete_where_app.
  rewrite (delete_where_absent _ _ Hfresh).
  rewrite (delete_where_absent _ _ Hmembers).
  rewrite (delete_where_absent _ _ Hrequests).
  unfold delete_where. cbn [filter]. unfold org_is, owner_row.
  cbn [organizations.id membersToOrganizations.organizationId].
  rewrite !id_eqb_refl. cbn [negb].
  now rewrite !app_nil_r, store_eta.
Qed.

(** X17: the owner's delete of an organization whose row is in the store
    returns and stays within that organization: afterwards no
    organization row bears its id and no membership or join request row
    refers to it, while the rows of and for every other organization are
    kept. *)
Theorem deleteOrg_stays_in_organization
  (owner : user.t) (currentOrg : organizations.row) (s : Store)
  (Howner : organizations.ownerId currentOrg = user.id owner)
  (Hhas : has_org (organizations.id currentOrg) s = true) :
  let r := run (deleteOrgMutation owner currentOrg) s in
  let cur := organizations.id currentOrg in
  snd r = inr tt
  /\ has_org cur (fst r) = false
  /\ org_has_members cur (fst r) = false
  /\ org_has_requests cur (fst r) = false
  /\ (forall row, In row (orgs (fst r)) <->
                  In row (orgs s) /\ organizations.id row <> cur)
  /\ (forall row, In row (members (fst r)) <->
                  In row (members s)
                  /\ membersToOrganizations.organizationId row <> cur)
  /\ (forall row, In row (requests (fst r)) <->
                  In row (requests s)
                  /\ orgRequests.organizationId row <> cur).
Proof.
  apply isOwner_true in Howner. unfold run.
  rewrite (exec_deleteOrg_owner _ _ _ Howner).
  cbn [fst snd final outcome]. unfold delete_cascade.
  unfold has_org in Hhas. rewrite Hhas.
  unfold has_org, org_has_members, org_has_requests.
  cbn [orgs members requests].
  repeat apply conj; try reflexivity; try apply delete_where_gone.
  - intros row. rewrite In_delete_where. unfold org_is, id_eqb.
    now rewrite String.eqb_neq.
  - intros row. rewrite In_delete_where. unfold id_eqb.
    now rewrite String.eqb_neq.
  - intros row. rewrite In_delete_where. unfold id_eqb.
    now rewrite String.eqb_neq.
Qed.

(** X19: accepting the request of a user who already holds a membership
    row of the caller's organization fails at the insert with the store's
    unique-violation error.  The delete is never issued, so the request
    stays pending and the store is left as it was. *)
Theorem accept_existing_member_fails
  (caller : user.t) (currentOrg : organizations.row) (requestId : Id)
  (request : orgRequests.row) (s : Store)
  (Hpriv : privileged s currentOrg caller = true)
  (Hreq : find (request_is requestId) (requests s) = Some request)
  (Hmember : is_member (orgRequests.userId request)
               (organizations.id currentOrg) s = true) :
  exec (acceptOrgRequestMutation caller currentOrg requestId) [] s
  = mkRun [s; s] s (inl (DatabaseError unique_violation))
  /\ kind_of (DatabaseError unique_violation) = StoreFailure
  /\ request_exists requestId s = true.
Proof.
  unfold is_member in Hmember.
  repeat apply conj; [| reflexivity | now apply (find_present _ _ _ Hreq)].
  unfold acceptOrgRequestMutation.
  cbn. rewrite gate_privileged, Hpriv. cbn. rewrite Hreq. cbn.
  rewrite Hmember. reflexivity.
Qed.

End Server.

(** ** The claims on the sample data *)

(** Bob holds an Admin row of Acme and is not its owner: both owner-only
    mutations refuse him; Alice, the owner, is let through. *)
Lemma owner_only_delete_and_promote_witness :
  isAdmin sample_store acme bob = true
  /\ run sample_uuid (deleteOrgMutation bob acme) sample_store
     = (sample_store, inl owner_only)
  /\ run sample_uuid (updateMemberRoleMutation bob acme "mia" Admin)
       sample_store
     = (sample_store, inl owner_only)
  /\ snd (run sample_uuid (deleteOrgMutation alice acme) sample_store)
     = inr tt
  /\ snd (run sample_uuid (updateMemberRoleMutation alice acme "mia" Admin)
            sample_store)
     = inr tt.
Proof.
  assert (Hbob : organizations.ownerId acme <> user.id bob)
    by discriminate.
  assert (Halice : organizations.ownerId acme = user.id alice)
    by reflexivity.
  destruct (proj1 (owner_only_delete_and_promote sample_uuid bob acme
                     "mia" sample_store) Hbob) as (Hd & Hp & _).
  destruct (proj2 (owner_only_delete_and_promote sample_uuid alice acme
                     "mia" sample_store) Halice) as (Hd' & Hp').
  repeat apply conj.
  - reflexivity.
  - exact Hd.
  - exact Hp.
  - rewrite Hd'. reflexivity.
  - rewrite Hp'. reflexivity.
Defined.

(** Mia, a plain member of Acme, renaming it to a two-letter name is
    turned away by the validation, not by the authorization. *)
Lemma unprivileged_rename_short_name_counterexample :
  privileged sample_store acme mia = false
  /\ run sample_uuid (updateOrgNameMutation mia acme "ab") sample_store
     = (sample_store,
        inl (Error "Invalid organization data"
               (Some [mkIssue "too_small" ["name"]
                        "Name must be at least 3 characters long"])))
  /\ ~ (exists e,
          snd (run sample_uuid (updateOrgNameMutation mia acme "ab")
                 sample_store) = inl e
          /\ kind_of e = NotAuthorized).
Proof.
  repeat apply conj; try reflexivity.
  intros (e & He & Hk). vm_compute in He. injection He as <-.
  discriminate.
Qed.

(** Mia is refused the removal of Bob; Bob, an Admin, declines a
    request. *)
Lemma privileged_gate_witness :
  run sample_uuid (removeUserMutation mia acme "bob") sample_store
  = (sample_store, inl denied)
  /\ snd (run sample_uuid (declineOrgRequestMutation bob acme "req-2")
            sample_store)
     = inr tt.
Proof.
  assert (Hmia : privileged sample_store acme mia = false)
    by reflexivity.
  assert (Hbob : privileged sample_store acme bob = true)
    by reflexivity.
  destruct (proj1 (privileged_gate sample_uuid sample_is_url mia acme
                     sample_store) Hmia)
    as (_ & _ & _ & _ & _ & Hremove & _).
  destruct (proj2 (privileged_gate sample_uuid sample_is_url bob acme
                     sample_store) Hbob)
    as (_ & _ & _ & _ & Hdecline).
  split.
  - exact (Hremove "bob").
  - rewrite (Hdecline "req-2"). reflexivity.
Defined.

(** Dan creates Delta: the store written by the first insert holds the
    organization and no membership row of Dan, and stays so when the
    second insert fails. *)
Lemma createOrg_not_atomic_counterexample :
  let create :=
    createOrgMutation sample_is_url dan "Delta"
      "https://img.example/delta.png" in
  let r := exec sample_uuid create [] sample_store in
  let r' := exec sample_uuid create [false; true] sample_store in
  outcome r
  = inr (organizations.mk "uuid-4" "Delta" "https://img.example/delta.png"
           "dan")
  /\ (exists st,
        In st (seen r)
        /\ has_org "uuid-4" st = true
        /\ memberships_of "dan" "uuid-4" st = 0)
  /\ outcome r' = inl (DatabaseError connection_failure)
  /\ has_org "uuid-4" (final r') = true
  /\ memberships_of "dan" "uuid-4" (final r') = 0.
Proof.
  repeat apply conj; try reflexivity.
  eexists. repeat apply conj; [left; reflexivity | reflexivity..].
Qed.

Lemma createOrg_rows_witness :
  let r := exec sample_uuid
             (createOrgMutation sample_is_url dan "Delta"
                "https://img.example/delta.png") [] sample_store in
  outcome r
  = inr (organizations.mk "uuid-4" "Delta" "https://img.example/delta.png"
           "dan")
  /\ memberships_of "dan" "uuid-4" (final r) = 1.
Proof.
  assert (Hname : valid_name "Delta") by (unfold valid_name; cbn; lia).
  destruct (createOrg_rows sample_uuid sample_is_url dan "Delta"
              "https://img.example/delta.png" sample_store
              Hname eq_refl eq_refl eq_refl)
    as (Ho & _ & _ & Hm & _).
  split; [exact Ho | exact Hm].
Defined.

(** Alice accepts Dan's request: between the insert and the delete Dan is
    a member of Acme with his request still pending, and stays so when
    the delete fails. *)
Lemma acceptOrgRequest_not_atomic_counterexample :
  let accept := acceptOrgRequestMutation alice acme "req-2" in
  let r := exec sample_uuid accept [] sample_store in
  let r' := exec sample_uuid accept [false; false; false; true]
              sample_store in
  outcome r = inr tt
  /\ (exists st,
        In st (seen r)
        /\ is_member "dan" "org-acme" st = true
        /\ request_exists "req-2" st = true)
  /\ outcome r' = inl (DatabaseError connection_failure)
  /\ is_member "dan" "org-acme" (final r') = true
  /\ request_exists "req-2" (final r') = true.
Proof.
  repeat apply conj; try reflexivity.
  eexists. repeat apply conj;
    [right; right; left; reflexivity | reflexivity..].
Qed.

Lemma acceptOrgRequest_effects_witness :
  let r := exec sample_uuid (acceptOrgRequestMutation alice acme "req-2")
             [] sample_store in
  outcome r = inr tt
  /\ members (final r)
     = (members sample_store
        ++ [membersToOrganizations.mk "dan" "org-acme" Member])%list
  /\ request_exists "req-2" (final r) = false.
Proof.
  destruct (acceptOrgRequest_effects sample_uuid alice acme "req-2"
              dan_request sample_store eq_refl eq_refl eq_refl)
    as (Ho & _ & Hm & _).
  repeat apply conj; [exact Ho | exact Hm | reflexivity].
Defined.

Lemma accept_missing_request_witness :
  run sample_uuid (acceptOrgRequestMutation bob acme "req-404") sample_store
  = (sample_store, inl (Error not_found_msg None)).
Proof.
  exact (proj1 (accept_missing_request sample_uuid bob acme "req-404"
                  sample_store eq_refl eq_refl)).
Defined.


Lemma declineOrgRequest_effects_witness :
  let r := run sample_uuid (declineOrgRequestMutation bob acme "req-2")
             sample_store in
  snd r = inr tt
  /\ request_exists "req-2" (fst r) = false
  /\ members (fst r) = members sample_store.
Proof.
  destruct (declineOrgRequest_effects sample_uuid bob acme "req-2"
              sample_store eq_refl)
    as (Ho & Hg & _ & Hm & _).
  repeat apply conj; [exact Ho | exact Hg | exact Hm].
Defined.

Lemma name_length_validation_witness :
  exists issue rest,
    run sample_uuid (updateOrgNameMutation mia acme "ab") sample_store
    = (sample_store,
       inl (Error "Invalid organization data" (Some (issue :: rest))))
    /\ path issue = ["name"].
Proof.
  assert (Hlen : String.length "ab" < 3 \/ 50 < String.length "ab")
    by (left; cbn; lia).
  destruct (proj2 (name_length_validation sample_uuid sample_is_url "ab"
                     Hlen) mia acme sample_store)
    as (issue & rest & Hr & Hp & _).
  exists issue, rest. split; [exact Hr | exact Hp].
Defined.

(** Bob, an Admin of Acme, accepts Carol's request to join Globex: Carol
    becomes a member of Acme, not of Globex, and the request is gone. *)
Lemma acceptOrgRequest_uses_current_org_witness :
  let r := run sample_uuid (acceptOrgRequestMutation bob acme "req-1")
             sample_store in
  orgRequests.organizationId carol_request = "org-globex"
  /\ snd r = inr tt
  /\ is_member "carol" "org-acme" (fst r) = true
  /\ memberships_of "carol" "org-globex" (fst r) = 0
  /\ ~ In carol_request (requests (fst r)).
Proof.
  destruct (acceptOrgRequest_uses_current_org sample_uuid bob acme "req-1"
              carol_request sample_store eq_refl eq_refl eq_refl)
    as (Hr & Hm & Hgone & Hother).
  assert (Hne : orgRequests.organizationId carol_request
                <> organizations.id acme) by discriminate.
  repeat apply conj.
  - reflexivity.
  - rewrite Hr. reflexivity.
  - exact Hm.
  - exact (eq_trans (Hother Hne) eq_refl).
  - exact Hgone.
Defined.

(** Bob, an Admin of Acme, declines Carol's request to join Globex. *)
Lemma declineOrgRequest_any_org_witness :
  let r := run sample_uuid (declineOrgRequestMutation bob acme "req-1")
             sample_store in
  orgRequests.organizationId carol_request <> organizations.id acme
  /\ snd r = inr tt
  /\ ~ In carol_request (requests (fst r)).
Proof.
  assert (Hin : In carol_request (requests sample_store))
    by (left; reflexivity).
  destruct (declineOrgRequest_any_org sample_uuid bob acme carol_request
              sample_store eq_refl Hin)
    as (Ho & Hgone & _).
  repeat apply conj; [discriminate | exact Ho | exact Hgone].
Defined.

(** The scenario of the specification, from an empty store: Olga creates
    Acme and holds its Admin row; Max asks to join; Olga accepts, then
    promotes Max to Admin; Max, now Admin, is refused the deletion and the
    organization is still there. *)
Example end_to_end_scenario :
  let olga := user.mk "olga" in
  let max := user.mk "max" in
  let go {A} (p : Prog A) (s : Store) := run sample_uuid p s in
  let s0 := mkStore [] [] [] in
  let '(s1, created) :=
    go (createOrgMutation sample_is_url olga "Acme"
          "https://img.example/acme.png") s0 in
  let org := organizations.mk "uuid-0" "Acme"
               "https://img.example/acme.png" "olga" in
  let '(s2, sent) := go (sendOrgRequestMutation max "uuid-0") s1 in
  let '(s3, accepted) := go (acceptOrgRequestMutation olga org "uuid-1") s2 in
  let '(s4, promoted) :=
    go (updateMemberRoleMutation olga org "max" Admin) s3 in
  let '(s5, deleted) := go (deleteOrgMutation max org) s4 in
  created = inr org
  /\ members s1 = [membersToOrganizations.mk "olga" "uuid-0" Admin]
  /\ sent = inr tt
  /\ requests s2 = [orgRequests.mk "uuid-1" "max" "uuid-0"]
  /\ accepted = inr tt
  /\ requests s3 = []
  /\ members s3 = [membersToOrganizations.mk "olga" "uuid-0" Admin;
                   membersToOrganizations.mk "max" "uuid-0" Member]
  /\ promoted = inr tt
  /\ members s4 = [membersToOrganizations.mk "olga" "uuid-0" Admin;
                   membersToOrganizations.mk "max" "uuid-0" Admin]
  /\ deleted = inl owner_only
  /\ s5 = s4
  /\ orgs s5 = [org].
Proof. vm_compute. repeat apply conj; reflexivity. Qed.

(** ** The further properties on the sample data *)

Lemma image_url_validation_witness :
  exec sample_uuid
    (updateOrgImageMutation sample_is_url bob acme "not a url")
    [true] sample_store
  = mkRun [] sample_store
      (inl (Error "Invalid organization data"
              (Some [mkIssue "invalid_string" ["image"]
                       "Invalid image URL"]))).
Proof.
  exact (proj2 (image_url_validation sample_uuid sample_is_url
                  "not a url" eq_refl)
           bob acme [true] sample_store).
Defined.

Lemma owner_check_and_store_failure_witness :
  exec sample_uuid (deleteOrgMutation bob acme) [true] sample_store
  = mkRun [] sample_store (inl owner_only)
  /\ exec sample_uuid (updateMemberRoleMutation bob acme "mia" Admin)
       [true; true] sample_store
     = mkRun [] sample_store (inl (DatabaseError connection_failure)).
Proof.
  assert (Hbob : organizations.ownerId acme <> user.id bob)
    by discriminate.
  destruct (owner_check_and_store_failure sample_uuid bob acme "mia"
              [true] sample_store Hbob) as (Hd & Hf & _).
  split; [exact Hd | exact Hf].
Defined.

(** Mia's request to join Globex returns; her request to join an
    organization that does not exist throws the foreign-key error and
    writes nothing. *)
Lemma sendOrgRequest_outcomes_witness :
  snd (run sample_uuid (sendOrgRequestMutation mia "org-globex")
         sample_store) = inr tt
  /\ has_org "org-nope" sample_store = false
  /\ run sample_uuid (sendOrgRequestMutation mia "org-nope") sample_store
     = (sample_store, inl (DatabaseError foreign_key_violation)).
Proof.
  destruct (sendOrgRequest_outcomes sample_uuid mia "org-globex"
              sample_store) as (_ & _ & _ & Hreturns & _).
  destruct (sendOrgRequest_outcomes sample_uuid mia "org-nope"
              sample_store) as (_ & _ & _ & _ & [Hr|[Hthrows _]] & _).
  - discriminate Hr.
  - repeat apply conj;
      [exact (Hreturns eq_refl) | reflexivity | exact Hthrows].
Defined.

(** Mia, a plain member, accepting Dan's pending request is refused. *)
Lemma unprivileged_accept_denied_witness :
  request_exists "req-2" sample_store = true
  /\ run sample_uuid (acceptOrgRequestMutation mia acme "req-2")
       sample_store
     = (sample_store, inl denied).
Proof.
  split; [reflexivity|].
  exact (proj1 (unprivileged_accept_denied sample_uuid mia acme "req-2"
                  sample_store eq_refl)).
Defined.

(** Alice promotes Mia: Gina's row in Globex is as it was. *)
Lemma updateMemberRole_frame_witness :
  let r := run sample_uuid (updateMemberRoleMutation alice acme "mia" Admin)
             sample_store in
  snd r = inr tt
  /\ In (membersToOrganizations.mk "gina" "org-globex" Admin)
       (members (fst r))
  /\ forall row, In row (members (fst r)) ->
                 member_is "mia" "org-acme" row = true ->
                 membersToOrganizations.role row = Admin.
Proof.
  destruct (updateMemberRole_frame sample_uuid alice acme "mia" Admin
              sample_store) as (_ & _ & _ & _ & _ & Hrole).
  repeat apply conj.
  - reflexivity.
  - right. right. right. left. reflexivity.
  - exact (Hrole eq_refl).
Defined.

(** Bob removes Mia from Acme. *)
Lemma removeUser_effects_witness :
  let r := run sample_uuid (removeUserMutation bob acme "mia")
             sample_store in
  snd r = inr tt
  /\ memberships_of "mia" "org-acme" (fst r) = 0
  /\ requests (fst r) = requests sample_store.
Proof.
  destruct (removeUser_effects sample_uuid bob acme "mia" sample_store
              eq_refl) as (Ho & Hz & _ & _ & Hr & _).
  repeat apply conj; [exact Ho | exact Hz | exact Hr].
Defined.

(** Bob renames Acme: Globex keeps its name and Acme its owner. *)
Lemma update_org_single_field_witness :
  let r := run sample_uuid (updateOrgNameMutation bob acme "Acme Corp")
             sample_store in
  snd r = inr tt
  /\ map organizations.ownerId (orgs (fst r)) = ["alice"; "gina"]
  /\ delete_where (org_is "org-acme") (orgs (fst r)) = [globex].
Proof.
  assert (Hname : valid_name "Acme Corp")
    by (unfold valid_name; cbn; lia).
  destruct (proj1 (update_org_single_field sample_uuid sample_is_url bob
                     acme sample_store eq_refl) "Acme Corp" Hname)
    as (Ho & _ & Hown & _ & Hrest & _).
  repeat apply conj; [exact Ho | exact Hown | exact Hrest].
Defined.

(** Bob, an Admin of Acme, removes himself and is then refused. *)
Lemma admin_self_revocation_witness :
  let r := run sample_uuid (removeUserMutation bob acme "bob")
             sample_store in
  snd r = inr tt
  /\ run sample_uuid (declineOrgRequestMutation bob acme "req-2") (fst r)
     = (fst r, inl denied).
Proof.
  assert (Hbob : organizations.ownerId acme <> user.id bob)
    by discriminate.
  destruct (proj1 (admin_self_revocation sample_uuid bob acme sample_store
                     Hbob eq_refl)) as (Ho & _ & Hd).
  split; [exact Ho | exact (Hd "req-2")].
Defined.

(** Bob removes Alice, the owner of Acme, who still may delete it. *)
Lemma owner_privilege_survives_removal_witness :
  let r := run sample_uuid (removeUserMutation bob acme "alice")
             sample_store in
  is_member "alice" "org-acme" (fst r) = false
  /\ snd (run sample_uuid (deleteOrgMutation alice acme) (fst r)) = inr tt.
Proof.
  destruct (owner_privilege_survives_removal sample_uuid bob alice acme
              sample_store eq_refl eq_refl) as (_ & Hm & _ & _ & Hd).
  split; [exact Hm | exact Hd].
Defined.

(** Alice promotes Mia, who may then remove Bob; promoting Carol, who is
    not a member, changes nothing. *)
Lemma promotion_grants_privilege_witness :
  (let r := run sample_uuid (updateMemberRoleMutation alice acme "mia"
                               Admin) sample_store in
   snd (run sample_uuid (removeUserMutation mia acme "bob") (fst r))
   = inr tt)
  /\ fst (run sample_uuid (updateMemberRoleMutation alice acme "carol"
                             Admin) sample_store)
     = sample_store.
Proof.
  destruct (promotion_grants_privilege sample_uuid alice acme "mia"
              sample_store eq_refl) as (_ & _ & Hgate & _).
  destruct (promotion_grants_privilege sample_uuid alice acme "carol"
              sample_store eq_refl) as (_ & _ & _ & Hnoop).
  split; [exact (Hgate eq_refl "bob") | exact (Hnoop eq_refl)].
Defined.

(** Dan, accepted into Acme by Alice, may not remove Bob. *)
Lemma accepted_member_not_privileged_witness :
  let r := run sample_uuid (acceptOrgRequestMutation alice acme "req-2")
             sample_store in
  snd r = inr tt
  /\ run sample_uuid (removeUserMutation dan acme "bob") (fst r)
     = (fst r, inl denied).
Proof.
  assert (Hdan : organizations.ownerId acme
                 <> orgRequests.userId dan_request) by discriminate.
  destruct (accepted_member_not_privileged sample_uuid alice acme "req-2"
              dan_request sample_store eq_refl eq_refl eq_refl Hdan)
    as (Ho & _ & _ & Hr).
  split; [exact Ho | exact (Hr "bob")].
Defined.

(** Dan creates Delta and may rename it; Bob may not. *)
Lemma creator_is_privileged_witness :
  let r := exec sample_uuid
             (createOrgMutation sample_is_url dan "Delta"
                "https://img.example/delta.png") [] sample_store in
  let delta := organizations.mk "uuid-4" "Delta"
                 "https://img.example/delta.png" "dan" in
  snd (run sample_uuid (updateOrgNameMutation dan delta "Delta Ltd")
         (final r)) = inr tt
  /\ privileged (final r) delta bob = false.
Proof.
  assert (Hname : valid_name "Delta") by (unfold valid_name; cbn; lia).
  assert (Hname' : valid_name "Delta Ltd")
    by (unfold valid_name; cbn; lia).
  assert (Hbob : user.id bob <> user.id dan) by discriminate.
  destruct (creator_is_privileged sample_uuid sample_is_url dan "Delta"
              "https://img.example/delta.png" sample_store
              Hname eq_refl eq_refl eq_refl)
    as (_ & _ & _ & Hrename & Hother).
  split; [exact (Hrename "Delta Ltd" Hname')
         | exact (Hother bob Hbob eq_refl)].
Defined.

(** Alice accepts Dan's request; a second accept finds nothing. *)
Lemma accept_is_single_use_witness :
  let s1 := fst (run sample_uuid (acceptOrgRequestMutation alice acme
                                    "req-2") sample_store) in
  run sample_uuid (acceptOrgRequestMutation alice acme "req-2") s1
  = (s1, inl (Error not_found_msg None))
  /\ memberships_of "dan" "org-acme" s1 = 1.
Proof.
  destruct (accept_is_single_use sample_uuid alice acme "req-2"
              dan_request sample_store eq_refl eq_refl eq_refl)
    as (Ha & _ & Hm).
  split; [exact Ha | exact Hm].
Defined.

(** Mia asks to join Globex and Gina declines. *)
Lemma submit_then_decline_restores_witness :
  let s1 := fst (run sample_uuid (sendOrgRequestMutation mia "org-globex")
                   sample_store) in
  run sample_uuid (declineOrgRequestMutation (user.mk "gina") globex
                     "uuid-4") s1
  = (sample_store, inr tt).
Proof.
  exact (proj2 (submit_then_decline_restores sample_uuid mia
                  (user.mk "gina") globex "org-globex" sample_store
                  eq_refl eq_refl eq_refl eq_refl)).
Defined.

(** Mia asks to join Globex and Gina accepts. *)
Lemma submit_then_accept_workflow_witness :
  let sent := run sample_uuid (sendOrgRequestMutation mia "org-globex")
                sample_store in
  let r := run sample_uuid (acceptOrgRequestMutation (user.mk "gina")
                              globex "uuid-4") (fst sent) in
  snd r = inr tt
  /\ memberships_of "mia" "org-globex" (fst r) = 1
  /\ requests (fst r) = requests sample_store.
Proof.
  destruct (submit_then_accept_workflow sample_uuid mia (user.mk "gina")
              globex sample_store eq_refl eq_refl eq_refl eq_refl eq_refl)
    as (_ & Ho & _ & Hr & _ & Hm & _).
  repeat apply conj; [exact Ho | exact Hm | exact Hr].
Defined.

(** Dan creates Delta and deletes it again. *)
Lemma create_then_delete_restores_witness :
  let r := exec sample_uuid
             (createOrgMutation sample_is_url dan "Delta"
                "https://img.example/delta.png") [] sample_store in
  let delta := organizations.mk "uuid-4" "Delta"
                 "https://img.example/delta.png" "dan" in
  run sample_uuid (deleteOrgMutation dan delta) (final r)
  = (sample_store, inr tt).
Proof.
  assert (Hname : valid_name "Delta") by (unfold valid_name; cbn; lia).
  exact (proj2 (create_then_delete_restores sample_uuid sample_is_url dan
                  "Delta" "https://img.example/delta.png" sample_store
                  Hname eq_refl eq_refl eq_refl eq_refl)).
Defined.

(** Alice deletes Acme: Globex, Gina's row and Carol's request stay. *)
Lemma deleteOrg_stays_in_organization_witness :
  let r := run sample_uuid (deleteOrgMutation alice acme) sample_store in
  snd r = inr tt
  /\ has_org "org-acme" (fst r) = false
  /\ In globex (orgs (fst r))
  /\ In carol_request (requests (fst r)).
Proof.
  destruct (deleteOrg_stays_in_organization sample_uuid alice acme
              sample_store eq_refl eq_refl)
    as (Ho & Hgone & _ & _ & Horgs & _ & Hreqs).
  repeat apply conj; [exact Ho | exact Hgone | |].
  - apply Horgs. split; [right; left; reflexivity | discriminate].
  - apply Hreqs. split; [left; reflexivity | discriminate].
Defined.

(** Mia, already a member of Acme, has a request for Acme pending:
    accepting it fails and the request stays. *)
Lemma accept_existing_member_fails_witness :
  let request := orgRequests.mk "req-9" "mia" "org-acme" in
  let s := mkStore [acme]
             [membersToOrganizations.mk "alice" "org-acme" Admin;
              membersToOrganizations.mk "mia" "org-acme" Member]
             [request] in
  exec sample_uuid (acceptOrgRequestMutation alice acme "req-9") [] s
  = mkRun [s; s] s (inl (DatabaseError unique_violation)).
Proof.
  exact (proj1 (accept_existing_member_fails sample_uuid alice acme "req-9"
                  (orgRequests.mk "req-9" "mia" "org-acme")
                  (mkStore [acme]
                     [membersToOrganizations.mk "alice" "org-acme" Admin;
                      membersToOrganizations.mk "mia" "org-acme" Member]
                     [orgRequests.mk "req-9" "mia" "org-acme"])
                  eq_refl eq_refl eq_refl)).
Defined.
